(** * Shorts video pipeline: a shallow embedding of the compositing,
      duration-synchronisation, audio and batch logic

    Sources embedded here:
    - [src/utils/narasi_processing.py]  (module [Narasi])
    - [src/utils/video_processor.py]    (modules [TextOverlay], [Processor])
    - [src/utils/gui_components.py]     (module [Gui])

    Conventions.
    - Python [float] values that the code only multiplies, divides and
      compares (durations, percentages, ratios) are exact rationals [Q];
      [int(x)] is truncation toward zero.
    - A call that may raise is an [outcome]; [try]/[except] is
      [try_except].
    - Functions of the repository that live in modules outside [src/]
      ([create_green_screen_mask], [process_frame_with_green_screen],
      [smart_text_wrap], ...) and the cv2 / PIL / moviepy primitives are
      fields of the interface classes below. *)

From Stdlib Require Import ZArith QArith Qround List String Ascii Bool Lia Arith.
From Stdlib Require Import DecimalString Lqa.
Import ListNotations.
Open Scope Z_scope.

(** ** Python helpers *)

Module Py.

(** [int(x)] on a float: truncation toward zero. *)
Definition int (x : Q) : Z := Z.quot (Qnum x) (Zpos (Qden x)).


(** [str(n)] for a non-negative integer. *)
Definition str_nat (n : nat) : string := NilZero.string_of_uint (Nat.to_uint n).

(** [s.replace(a, b)] for single characters. *)
Fixpoint replace_char (a b : ascii) (s : string) : string :=
  match s with
  | EmptyString => EmptyString
  | String c s' => String (if Ascii.eqb c a then b else c) (replace_char a b s')
  end.

(** [sep.join(parts)]. *)
Fixpoint join (sep : string) (parts : list string) : string :=
  match parts with
  | [] => EmptyString
  | [p] => p
  | p :: rest => (p ++ sep ++ join sep rest)%string
  end.

End Py.

(** ** Outcomes of calls that may raise *)

Inductive outcome (A : Type) : Type :=
| Returned (a : A)
| Raised (e : string)
| OutOfFuel.
Arguments Returned {A} a.
Arguments Raised {A} e.
Arguments OutOfFuel {A}.

(** The result of a library or file-system call: it returns or raises. *)
Inductive io_result (A : Type) : Type :=
| Ok (a : A)
| Err (e : string).
Arguments Ok {A} a.
Arguments Err {A} e.

Definition lift_io {A} (r : io_result A) : outcome A :=
  match r with
  | Ok a => Returned a
  | Err e => Raised e
  end.
Coercion lift_io : io_result >-> outcome.

Definition bind {A B} (m : outcome A) (k : A -> outcome B) : outcome B :=
  match m with
  | Returned a => k a
  | Raised e => Raised e
  | OutOfFuel => OutOfFuel
  end.

Notation "x <- m ;; k" := (bind m (fun x => k))
  (at level 61, m at next level, right associativity).

(** [try: m  except Exception as e: h e]. *)
Definition try_except {A} (m : outcome A) (h : string -> outcome A) : outcome A :=
  match m with
  | Raised e => h e
  | other => other
  end.

Definition raises {A} (m : outcome A) : Prop := exists e, m = Raised e.

(** ** External interfaces *)

(** A mask is the flattened uint8 array that [cv2.inRange] yields. *)
Definition Mask := list N.

(** [np.sum(mask)]. *)
Definition np_sum (m : Mask) : N := fold_right N.add 0%N m.

(** Number of key-coloured (non-zero) pixels of a mask. *)
Definition true_count (m : Mask) : nat :=
  List.length (filter (fun p => negb (N.eqb p 0)) m).

(** cv2 and the repository's pixel kernels. *)
Class Imaging : Type := {
  Frame : Type;
  shape : Frame -> Z * Z;
  resize : Frame -> Z * Z -> Frame;
  create_green_screen_mask : Frame -> Mask;
  process_frame_with_green_screen : Frame -> Frame -> Mask -> Frame;
  process_blur_frame : Frame -> Z -> Z -> Z -> Z -> Z -> Z -> Frame
}.

Definition FRAME_WIDTH : Z := 1080.
Definition FRAME_HEIGHT : Z := 1920.

(** [if f.shape[:2] != (1920, 1080): f = cv2.resize(f, (1080, 1920))]. *)
Definition ensure_size `{Imaging} (f : Frame) : Frame :=
  let '(h, w) := shape f in
  if andb (h =? FRAME_HEIGHT) (w =? FRAME_WIDTH) then f
  else resize f (FRAME_WIDTH, FRAME_HEIGHT).

(** ** Text overlay ([VideoProcessor.add_text_overlay]) *)

Module TextOverlay.

(** The [text_settings] dict built by the [get_*_text_settings] getters. *)
Record TextSettings : Type := {
  enabled : bool;
  x_position : Z;
  y_position : Z;
  size : Z;
  font : string;
  color : option string
}.

(** PIL and the repository's [text_rendering] module. [None] stands for a
    raised exception. *)
Class Pil `{Imaging} : Type := {
  Image : Type;
  Font : Type;
  Emoji : Type;
  fromarray : Frame -> option Image;
  toarray : Image -> option Frame;
  truetype : string -> Z -> option Font;
  load_default : Font;
  splitext_root : string -> string;
  draw_text : Image -> Z * Z -> string -> Font -> string -> option Image;
  paste : Image -> Emoji -> Z * Z -> option Image
}.

(** One entry of [line_data['items']]: a triple (type, item, x_offset). *)
Inductive Item `{Pil} : Type :=
| EmojiItem (item : Emoji) (x_offset : Z)
| TextItem (item : string) (x_offset : Z)
| OtherItem (x_offset : Z).

Record LineData `{Pil} : Type := {
  line_y : Z;
  x_start : Z;
  line_emoji_size : Z;
  items : list Item
}.

Class TextRendering `{Pil} : Type := {
  smart_text_wrap : string -> Image -> Font -> Z -> Z -> option (list string);
  render_text_with_emoji_multiline :
    Image -> list string -> Font -> Z -> Z -> Z -> Z -> Z -> option (list LineData)
}.

Section Overlay.
Context `{TextRendering}.

Definition get_font_file (font_name : string) : string :=
  if String.eqb font_name "Arial" then "arial.ttf"
  else if String.eqb font_name "Times New Roman" then "times.ttf"
  else if String.eqb font_name "Helvetica" then "arial.ttf"
  else if String.eqb font_name "Courier New" then "cour.ttf"
  else if String.eqb font_name "Verdana" then "verdana.ttf"
  else if String.eqb font_name "Georgia" then "georgia.ttf"
  else if String.eqb font_name "Comic Sans MS" then "comic.ttf"
  else if String.eqb font_name "Impact" then "impact.ttf"
  else if String.eqb font_name "Trebuchet MS" then "trebuc.ttf"
  else if String.eqb font_name "Tahoma" then "tahoma.ttf"
  else "arial.ttf".

(** The body of the inner loop: one item of one line. *)
Definition draw_item (ts : TextSettings) (fnt : Font) (text_color : string)
    (ld : LineData) (img : Image) (it : Item) : option Image :=
  match it with
  | EmojiItem e x_offset =>
      let emoji_y := line_y ld + (size ts - line_emoji_size ld) / 2 in
      paste img e (x_start ld + x_offset, emoji_y)
  | TextItem s x_offset =>
      draw_text img (x_start ld + x_offset, line_y ld) s fnt text_color
  | OtherItem _ => Some img
  end.

Fixpoint draw_items (ts : TextSettings) (fnt : Font) (text_color : string)
    (ld : LineData) (its : list Item) (img : Image) : option Image :=
  match its with
  | [] => Some img
  | it :: rest =>
      match draw_item ts fnt text_color ld img it with
      | Some img' => draw_items ts fnt text_color ld rest img'
      | None => None
      end
  end.

Fixpoint draw_lines (ts : TextSettings) (fnt : Font) (text_color : string)
    (lds : list LineData) (img : Image) : option Image :=
  match lds with
  | [] => Some img
  | ld :: rest =>
      match draw_items ts fnt text_color ld (items ld) img with
      | Some img' => draw_lines ts fnt text_color rest img'
      | None => None
      end
  end.

(** The [try] block of [add_text_overlay]; [None] is an exception. *)
Definition add_text_overlay_body (frame : Frame) (video_name : string)
    (ts : TextSettings) : option Frame :=
  match fromarray frame with
  | None => None
  | Some pil_image =>
      let fnt :=
        match truetype (get_font_file (font ts)) (size ts) with
        | Some f => f
        | None => load_default
        end in
      let video_name_text :=
        Py.replace_char "_"%char " "%char (splitext_root video_name) in
      let max_text_width := FRAME_WIDTH - 80 in
      match smart_text_wrap video_name_text pil_image fnt max_text_width 80 with
      | None => None
      | Some lines =>
          let x_percent := (inject_Z (x_position ts) / 100)%Q in
          let y_percent := (inject_Z (y_position ts) / 100)%Q in
          let line_height := size ts + 10 in
          let total_text_height := Z.of_nat (List.length lines) * line_height in
          let base_y :=
            Py.int (y_percent * inject_Z (FRAME_HEIGHT - total_text_height - 40))%Q in
          let base_y :=
            Z.max 20 (Z.min base_y (FRAME_HEIGHT - total_text_height - 20)) in
          match render_text_with_emoji_multiline pil_image lines fnt
                  FRAME_WIDTH FRAME_HEIGHT base_y 80 10 with
          | None => None
          | Some rendered_lines =>
              let text_color :=
                match color ts with Some c => c | None => "#000000"%string end in
              match draw_lines ts fnt text_color rendered_lines pil_image with
              | None => None
              | Some img => toarray img
              end
          end
      end
  end.

(** [except Exception: return frame]. *)
Definition add_text_overlay (frame : Frame) (video_name : string)
    (ts : TextSettings) : Frame :=
  match add_text_overlay_body frame video_name ts with
  | Some f => f
  | None => frame
  end.

End Overlay.
End TextOverlay.

(** ** More string helpers: [s.lower().endswith(suffix)] *)

Module PyStr.

Definition lower_char (c : ascii) : ascii :=
  let n := nat_of_ascii c in
  if andb (Nat.leb 65 n) (Nat.leb n 90) then ascii_of_nat (n + 32) else c.

Fixpoint lower (s : string) : string :=
  match s with
  | EmptyString => EmptyString
  | String c s' => String (lower_char c) (lower s')
  end.

Definition endswith (s suffix : string) : bool :=
  let n := String.length s in
  let m := String.length suffix in
  andb (Nat.leb m n) (String.eqb (substring (n - m) m s) suffix).

Definition is_gif_path (path : string) : bool := endswith (lower path) ".gif".

End PyStr.

(** ** moviepy clips

    A clip is its [duration] attribute and its frame function
    [make_frame : time -> sample]; [subclip], [loop] and [volumex] are the
    time and value transformations of the library. *)

Module Moviepy.

Record AudioClip : Type := {
  duration : Q;
  make_frame : Q -> Q
}.

(** [t % d] on floats, for a positive [d]. *)
Definition fmod (t d : Q) : Q := (t - d * inject_Z (Qfloor (t / d)))%Q.

(** [clip.subclip(t_start, t_end)]. *)
Definition subclip (c : AudioClip) (t_start t_end : Q) : AudioClip :=
  {| duration := (t_end - t_start)%Q;
     make_frame := fun t => make_frame c (t + t_start)%Q |}.

(** [clip.loop(duration=d)]: time is taken modulo the clip's own duration
    and the result's duration is set to [d]. *)
Definition loop (c : AudioClip) (d : Q) : AudioClip :=
  {| duration := d;
     make_frame := fun t => make_frame c (fmod t (duration c)) |}.

(** [clip.volumex(factor)]. *)
Definition volumex (c : AudioClip) (factor : Q) : AudioClip :=
  {| duration := duration c;
     make_frame := fun t => (factor * make_frame c t)%Q |}.

Record VideoClip `{Imaging} : Type := {
  video_duration : Q;
  video_frames : list Frame
}.

(** What ends up at [output_path]. *)
Inductive OutputFile `{Imaging} : Type :=
| Muxed (video : VideoClip) (audio : AudioClip)
| VideoOnly (frames : list Frame)
| NoOutput.

End Moviepy.

(** ** [narasi_processing.py] *)

Module Narasi.
Import TextOverlay Moviepy.

(** A [cv2.VideoCapture]: the decodable frames of the file, the read
    position, and the two properties the code queries. *)
Record VideoCapture `{Imaging} : Type := {
  cap_frames : list Frame;
  cap_pos : nat;
  cap_fps : Q;
  cap_frame_count : Q
}.

(** A video file on disk: ordered frames and container metadata. *)
Record VideoFile `{Imaging} : Type := {
  file_frames : list Frame;
  file_fps : Q;
  file_frame_count : Q
}.

(** [cv2.VideoCapture(path)]: positioned at the first frame. *)
Definition video_capture `{Imaging} (f : VideoFile) : VideoCapture :=
  {| cap_frames := file_frames f; cap_pos := 0%nat;
     cap_fps := file_fps f; cap_frame_count := file_frame_count f |}.

(** What the file system holds at [template_path]. *)
Record TemplateFile `{Imaging} : Type := {
  template_path : string;
  imread : option Frame;
  extract_gif_frames : list Frame
}.

Section Loops.
Context `{TextRendering}.

(** [ret, frame = cap.read()]. *)
Definition cap_read (cap : VideoCapture) : option Frame * VideoCapture :=
  match nth_error (cap_frames cap) (cap_pos cap) with
  | Some f =>
      (Some f, {| cap_frames := cap_frames cap; cap_pos := S (cap_pos cap);
                  cap_fps := cap_fps cap; cap_frame_count := cap_frame_count cap |})
  | None => (None, cap)
  end.

(** [cap.set(cv2.CAP_PROP_POS_FRAMES, n)]. *)
Definition cap_set_pos_frames (cap : VideoCapture) (n : nat) : VideoCapture :=
  {| cap_frames := cap_frames cap; cap_pos := n;
     cap_fps := cap_fps cap; cap_frame_count := cap_frame_count cap |}.

(** A read that restarts the source once when it is exhausted. *)
Definition read_or_restart (cap : VideoCapture) : option Frame * VideoCapture :=
  match cap_read cap with
  | (Some f, cap') => (Some f, cap')
  | (None, cap') => cap_read (cap_set_pos_frames cap' 0)
  end.

(** [if text_settings and text_settings['enabled']: ... add_text_overlay]. *)
Definition overlay_if_enabled (text_settings : option TextSettings)
    (processed_frame : Frame) : Frame :=
  match text_settings with
  | Some ts =>
      if enabled ts then add_text_overlay processed_frame "Narasi Video" ts
      else processed_frame
  | None => processed_frame
  end.

(** The [while frames_written < target_frames] loop of
    [process_concatenated_video_with_template]; [out] is what has been
    passed to [out.write] so far. *)
Fixpoint static_loop (fuel : nat) (template : Frame) (template_mask : Mask)
    (text_settings : option TextSettings) (target_frames : Z)
    (cap : VideoCapture) (frames_written : nat) (out : list Frame)
    : outcome (nat * list Frame) :=
  match fuel with
  | O => OutOfFuel
  | S fuel' =>
      if Z.of_nat frames_written <? target_frames then
        match read_or_restart cap with
        | (None, _) => Returned (frames_written, out)
        | (Some frame, cap') =>
            let processed_frame :=
              process_frame_with_green_screen template frame template_mask in
            let processed_frame := overlay_if_enabled text_settings processed_frame in
            let processed_frame := ensure_size processed_frame in
            static_loop fuel' template template_mask text_settings target_frames
              cap' (S frames_written) (out ++ [processed_frame])
        end
      else Returned (frames_written, out)
  end.

(** The loop of [process_concatenated_video_with_gif_template]. *)
Fixpoint gif_loop (fuel : nat) (gif_frames : list Frame) (gif_default : Frame)
    (text_settings : option TextSettings) (target_frames : Z)
    (cap : VideoCapture) (frames_written : nat) (out : list Frame)
    : outcome (nat * list Frame) :=
  match fuel with
  | O => OutOfFuel
  | S fuel' =>
      if Z.of_nat frames_written <? target_frames then
        match read_or_restart cap with
        | (None, _) => Returned (frames_written, out)
        | (Some frame, cap') =>
            let gif_frame_count := List.length gif_frames in
            let gif_frame_index := (frames_written mod gif_frame_count)%nat in
            let current_gif_frame := nth gif_frame_index gif_frames gif_default in
            let current_gif_frame :=
              resize current_gif_frame (FRAME_WIDTH, FRAME_HEIGHT) in
            let template_mask := create_green_screen_mask current_gif_frame in
            let processed_frame :=
              process_frame_with_green_screen current_gif_frame frame template_mask in
            let processed_frame := overlay_if_enabled text_settings processed_frame in
            let processed_frame := ensure_size processed_frame in
            gif_loop fuel' gif_frames gif_default text_settings target_frames
              cap' (S frames_written) (out ++ [processed_frame])
        end
      else Returned (frames_written, out)
  end.

(** [fps = int(cap.get(CAP_PROP_FPS))],
    [total_frames = int(cap.get(CAP_PROP_FRAME_COUNT))],
    [video_duration = total_frames / fps] (a [ZeroDivisionError] when
    [fps] is 0), [target_frames = int(target_duration * fps)]. *)
Definition target_frames_of (cap : VideoCapture) (target_duration : Q) : outcome Z :=
  let fps := Py.int (cap_fps cap) in
  let total_frames := Py.int (cap_frame_count cap) in
  if fps =? 0 then Raised "division by zero"
  else
    let video_duration := (inject_Z total_frames / inject_Z fps)%Q in
    Returned (Py.int (target_duration * inject_Z fps)%Q).

(** The loop runs at most [target_frames] bodies and one last test. *)
Definition loop_fuel (target_frames : Z) : nat := S (Z.to_nat target_frames).

Definition process_concatenated_video_with_gif_template
    (video : VideoFile) (tpl : TemplateFile)
    (text_settings : option TextSettings) (target_duration : Q)
    : outcome (bool * list Frame) :=
  match extract_gif_frames tpl with
  | [] => Raised "Could not extract GIF frames"
  | g0 :: _ =>
      let cap := video_capture video in
      target_frames <- target_frames_of cap target_duration ;;
      r <- gif_loop (loop_fuel target_frames) (extract_gif_frames tpl) g0
             text_settings target_frames cap 0%nat [] ;;
      Returned (true, snd r)
  end.

Definition process_concatenated_video_with_template
    (video : VideoFile) (tpl : TemplateFile) (template_mask : Mask)
    (text_settings : option TextSettings) (target_duration : Q)
    : outcome (bool * list Frame) :=
  if PyStr.is_gif_path (template_path tpl) then
    process_concatenated_video_with_gif_template video tpl text_settings
      target_duration
  else
    match imread tpl with
    | None => Raised "Could not load template"
    | Some template =>
        let template := resize template (FRAME_WIDTH, FRAME_HEIGHT) in
        let cap := video_capture video in
        target_frames <- target_frames_of cap target_duration ;;
        r <- static_loop (loop_fuel target_frames) template template_mask
               text_settings target_frames cap 0%nat [] ;;
        Returned (true, snd r)
    end.

End Loops.

Section Audio.
Context `{Imaging}.

(** The moviepy calls of [add_audio_to_narasi_video] that touch files. *)
Record AudioIO : Type := {
  open_video_clip : list Frame -> io_result VideoClip;
  open_audio_clip : io_result AudioClip;
  write_videofile : VideoClip -> AudioClip -> io_result unit;
  copy2 : io_result unit
}.

(** Lines 287-295: cut or loop the audio clip to [target_duration]. *)
Definition adjust_audio (audio_clip : AudioClip) (target_duration : Q) : AudioClip :=
  if Qlt_le_dec target_duration (duration audio_clip) then
    subclip audio_clip 0 target_duration
  else if Qlt_le_dec (duration audio_clip) target_duration then
    let loops_needed := Py.int (target_duration / duration audio_clip)%Q + 1 in
    loop audio_clip target_duration
  else audio_clip.

(** The [try] block of [add_audio_to_narasi_video]. *)
Definition add_audio_try (io : AudioIO) (temp_video : list Frame)
    (target_duration : Q) : outcome (bool * OutputFile) :=
  video_clip <- open_video_clip io temp_video ;;
  audio_clip <- open_audio_clip io ;;
  let audio_clip := adjust_audio audio_clip target_duration in
  _ <- write_videofile io video_clip audio_clip ;;
  Returned (true, Muxed video_clip audio_clip).

(** The [except] block: copy the silent video, swallow a failing copy,
    and return [False]. *)
Definition add_audio_fallback (io : AudioIO) (temp_video : list Frame)
    : outcome (bool * OutputFile) :=
  match copy2 io with
  | Ok _ => Returned (false, VideoOnly temp_video)
  | Err _ => Returned (false, NoOutput)
  end.

Definition add_audio_to_narasi_video (io : AudioIO) (temp_video : list Frame)
    (target_duration : Q) : outcome (bool * OutputFile) :=
  try_except (add_audio_try io temp_video target_duration)
    (fun _ => add_audio_fallback io temp_video).

End Audio.

Section Mode.
Context `{TextRendering}.

(** The files and library calls [process_narasi_mode] depends on.
    [concatenated] is the file written by [concatenate_videos_moviepy]
    (or the exception it raised). *)
Record NarasiWorld : Type := {
  concatenated : io_result VideoFile;
  template_file : TemplateFile;
  audio_io : AudioIO
}.

Record NarasiResult : Type := {
  success : bool;
  composited : list Frame;
  output : OutputFile
}.

(** Template frame used for the up-front mask. *)
Definition template_for_mask_of (tpl : TemplateFile) : outcome Frame :=
  if PyStr.is_gif_path (template_path tpl) then
    match extract_gif_frames tpl with
    | g0 :: _ => Returned g0
    | [] => Raised "Could not extract GIF frames"
    end
  else
    match imread tpl with
    | Some t => Returned t
    | None => Raised "Could not load template"
    end.

(** The [try] block of [process_narasi_mode]. *)
Definition narasi_steps (w : NarasiWorld) (text_settings : option TextSettings)
    (target_duration : Q) : outcome NarasiResult :=
  video <- concatenated w ;;
  template_for_mask <- template_for_mask_of (template_file w) ;;
  let template_for_mask := resize template_for_mask (FRAME_WIDTH, FRAME_HEIGHT) in
  let template_mask := create_green_screen_mask template_for_mask in
  if N.eqb (np_sum template_mask) 0 then
    Raised "No green screen detected in template"
  else
    r <- process_concatenated_video_with_template video (template_file w)
           template_mask text_settings target_duration ;;
    if negb (fst r) then Raised "Template processing failed"
    else
      a <- add_audio_to_narasi_video (audio_io w) (snd r) target_duration ;;
      Returned {| success := fst a; composited := snd r; output := snd a |}.

(** [process_narasi_mode]: the audio duration is read before the [try];
    any exception inside it is logged and turned into [False]. *)
Definition process_narasi_mode (w : NarasiWorld)
    (text_settings : option TextSettings) : outcome NarasiResult :=
  audio_clip <- open_audio_clip (audio_io w) ;;
  let target_duration := duration audio_clip in
  try_except (narasi_steps w text_settings target_duration)
    (fun _ => Returned {| success := false; composited := []; output := NoOutput |}).

End Mode.
End Narasi.

(** ** [video_processor.py] *)

Module Processor.
Import TextOverlay Moviepy.

(** The dict returned by [get_audio_settings]. An empty [folder_path] is
    the falsy "no folder selected". *)
Record AudioSettings : Type := {
  audio_enabled : bool;
  dual_audio_enabled : bool;
  folder_path : string;
  original_volume : Z;
  background_volume : Z
}.

Definition truthy (s : string) : bool := negb (String.eqb s "").

(** File-system and [file_operations] calls used by the audio handlers. *)
Record AudioOps : Type := {
  path_exists : string -> bool;
  get_audio_files : string -> io_result (list string);
  random_choice : list string -> string;
  path_join : string -> string -> string;
  add_dual_audio_to_video : string -> Z -> Z -> io_result bool;
  add_background_music_to_video : string -> Z -> io_result bool;
  add_audio_to_video : io_result bool;
  temp_exists : bool;
  copy_temp : io_result unit;
  move_temp : io_result unit;
  remove_temp : io_result unit
}.

(** Which audio ended up in the output file. *)
Inductive AudioResult : Type :=
| DualMixed (background : string)
| BackgroundMusic (background : string)
| OriginalAudio
| CopiedWithoutAudio
| NothingWritten.

Section AudioHandling.
Variable ops : AudioOps.

Definition get_random_audio_file (audio_folder : string) : outcome (option string) :=
  if orb (negb (truthy audio_folder)) (negb (path_exists ops audio_folder)) then
    Returned None
  else
    audio_files <- get_audio_files ops audio_folder ;;
    match audio_files with
    | [] => Returned None
    | _ => Returned (Some (path_join ops audio_folder (random_choice ops audio_files)))
    end.

(** [add_audio_to_video(temp_output, video_path, output_path)]; its return
    value is not inspected. *)
Definition use_original_audio : outcome AudioResult :=
  _ <- add_audio_to_video ops ;;
  Returned OriginalAudio.

(** The [try] block of [handle_audio_processing]. *)
Definition handle_audio_try (audio_settings : AudioSettings) : outcome AudioResult :=
  if dual_audio_enabled audio_settings then
    if truthy (folder_path audio_settings) then
      background_audio_path <- get_random_audio_file (folder_path audio_settings) ;;
      match background_audio_path with
      | Some bg =>
          success <- add_dual_audio_to_video ops bg
                       (original_volume audio_settings)
                       (background_volume audio_settings) ;;
          if success then Returned (DualMixed bg) else use_original_audio
      | None => use_original_audio
      end
    else use_original_audio
  else if andb (audio_enabled audio_settings) (truthy (folder_path audio_settings)) then
    background_audio_path <- get_random_audio_file (folder_path audio_settings) ;;
    match background_audio_path with
    | Some bg =>
        success <- add_background_music_to_video ops bg
                     (background_volume audio_settings) ;;
        if success then Returned (BackgroundMusic bg) else use_original_audio
    | None => use_original_audio
    end
  else use_original_audio.

(** The [except] block: copy the temp file if it exists; a failing copy is
    only printed. *)
Definition handle_audio_except : outcome AudioResult :=
  if temp_exists ops then
    match copy_temp ops with
    | Ok _ => Returned CopiedWithoutAudio
    | Err _ => Returned NothingWritten
    end
  else Returned NothingWritten.

Definition handle_audio_processing (audio_settings : AudioSettings)
    : outcome AudioResult :=
  try_except (handle_audio_try audio_settings) (fun _ => handle_audio_except).

End AudioHandling.

(** The dict returned by [get_blur_settings]. *)
Record BlurSettings : Type := {
  crop_top : Z;
  crop_bottom : Z;
  video_x_position : Z;
  video_y_position : Z
}.

Section Jobs.
Context `{TextRendering}.

(** Everything one input file brings with it: its name, what
    [is_gif_file] says about it, its decoded content, and the library
    calls made while it is processed. *)
Record Job : Type := {
  job_folder : string;
  job_file_name : string;
  job_is_gif : bool;
  job_video : Narasi.VideoFile;
  job_video_properties : io_result Q;
  job_gif_frames : io_result (list Frame);
  job_gif_template_video : io_result bool;
  job_ops : AudioOps;
  job_io : Narasi.AudioIO
}.

Record JobResult : Type := {
  job_ok : bool;
  job_frames : list Frame;
  job_audio : option AudioResult;
  job_output : option OutputFile
}.

(** [get_template_for_processing]. *)
Definition get_template_for_processing (tpl : Narasi.TemplateFile) : outcome Frame :=
  if PyStr.is_gif_path (Narasi.template_path tpl) then
    match Narasi.extract_gif_frames tpl with
    | g0 :: _ => Returned g0
    | [] => Raised "Could not extract frames from GIF template"
    end
  else
    match Narasi.imread tpl with
    | Some t => Returned t
    | None => Raised "Could not load image template"
    end.

Definition overlay_if (ts : TextSettings) (name : string) (f : Frame) : Frame :=
  if enabled ts then add_text_overlay f name ts else f.

Definition process_single_video_greenscreen (j : Job) (tpl : Narasi.TemplateFile)
    (template_mask : Mask) (text_settings : TextSettings)
    (audio_settings : AudioSettings) : outcome JobResult :=
  if PyStr.is_gif_path (Narasi.template_path tpl) then
    success <- job_gif_template_video j ;;
    if success then
      a <- handle_audio_processing (job_ops j) audio_settings ;;
      Returned {| job_ok := true; job_frames := []; job_audio := Some a; job_output := None |}
    else Returned {| job_ok := false; job_frames := []; job_audio := None; job_output := None |}
  else
    template <- get_template_for_processing tpl ;;
    let template := resize template (FRAME_WIDTH, FRAME_HEIGHT) in
    fps <- job_video_properties j ;;
    let video_name := job_file_name j in
    let written :=
      map (fun video_frame =>
             ensure_size
               (overlay_if text_settings video_name
                  (process_frame_with_green_screen template video_frame template_mask)))
          (Narasi.file_frames (job_video j)) in
    a <- handle_audio_processing (job_ops j) audio_settings ;;
    Returned {| job_ok := true; job_frames := written; job_audio := Some a; job_output := None |}.

Definition blur_frame (blur_settings : BlurSettings) (f : Frame) : Frame :=
  process_blur_frame f (crop_top blur_settings) (crop_bottom blur_settings)
    (video_x_position blur_settings) (video_y_position blur_settings)
    FRAME_WIDTH FRAME_HEIGHT.

Definition process_single_video_blur (j : Job) (blur_settings : BlurSettings)
    (text_settings : option TextSettings) (audio_settings : AudioSettings)
    : outcome JobResult :=
  fps <- job_video_properties j ;;
  let video_name := job_file_name j in
  let written :=
    map (fun video_frame =>
           ensure_size
             (match text_settings with
              | Some ts => overlay_if ts video_name (blur_frame blur_settings video_frame)
              | None => blur_frame blur_settings video_frame
              end))
        (Narasi.file_frames (job_video j)) in
  a <- handle_audio_processing (job_ops j) audio_settings ;;
  Returned {| job_ok := true; job_frames := written; job_audio := Some a; job_output := None |}.

(** Lines 845-849: loop or trim the background track to the video. *)
Definition adjust_background_audio (background_audio : AudioClip)
    (video_duration : Q) : AudioClip :=
  if Qlt_le_dec (duration background_audio) video_duration then
    loop background_audio video_duration
  else subclip background_audio 0 video_duration.

(** [if os.path.exists(temp_output): shutil.move(temp_output, output_path)]. *)
Definition move_temp_if_exists (ops : AudioOps) (temp : list Frame)
    : outcome OutputFile :=
  if temp_exists ops then
    _ <- move_temp ops ;;
    Returned (VideoOnly temp)
  else Returned NoOutput.

(** The [try] block of [handle_gif_audio_processing]. *)
Definition handle_gif_audio_try (ops : AudioOps) (io : Narasi.AudioIO)
    (temp : list Frame) (audio_settings : AudioSettings) : outcome OutputFile :=
  if andb (orb (audio_enabled audio_settings) (dual_audio_enabled audio_settings))
          (truthy (folder_path audio_settings)) then
    background_audio_path <- get_random_audio_file ops (folder_path audio_settings) ;;
    match background_audio_path with
    | Some _ =>
        video_clip <- Narasi.open_video_clip io temp ;;
        background_audio <- Narasi.open_audio_clip io ;;
        let volume := (inject_Z (background_volume audio_settings) / 100)%Q in
        let background_audio := volumex background_audio volume in
        let background_audio :=
          adjust_background_audio background_audio (video_duration video_clip) in
        _ <- Narasi.write_videofile io video_clip background_audio ;;
        _ <- (if temp_exists ops then remove_temp ops else Ok tt) ;;
        Returned (Muxed video_clip background_audio)
    | None => move_temp_if_exists ops temp
    end
  else move_temp_if_exists ops temp.

(** The [except] block moves the temp file too, unguarded. *)
Definition handle_gif_audio_processing (ops : AudioOps) (io : Narasi.AudioIO)
    (temp : list Frame) (audio_settings : AudioSettings) : outcome OutputFile :=
  try_except (handle_gif_audio_try ops io temp audio_settings)
    (fun _ => move_temp_if_exists ops temp).

Definition failed_job : JobResult :=
  {| job_ok := false; job_frames := []; job_audio := None; job_output := None |}.

Definition process_gif_to_mp4_greenscreen (j : Job) (tpl : Narasi.TemplateFile)
    (template_mask : Mask) (text_settings : TextSettings)
    (audio_settings : AudioSettings) : outcome JobResult :=
  try_except
    (frames <- job_gif_frames j ;;
     match frames with
     | [] => Returned failed_job
     | _ =>
         template <- get_template_for_processing tpl ;;
         let template := resize template (FRAME_WIDTH, FRAME_HEIGHT) in
         let gif_name := job_file_name j in
         let written :=
           map (fun frame =>
                  ensure_size
                    (overlay_if text_settings gif_name
                       (process_frame_with_green_screen template frame template_mask)))
               frames in
         o <- handle_gif_audio_processing (job_ops j) (job_io j) written
                audio_settings ;;
         Returned {| job_ok := true; job_frames := written; job_audio := None;
                     job_output := Some o |}
     end)
    (fun _ => Returned failed_job).

Definition process_gif_to_mp4_blur (j : Job) (blur_settings : BlurSettings)
    (text_settings : option TextSettings) (audio_settings : AudioSettings)
    : outcome JobResult :=
  try_except
    (frames <- job_gif_frames j ;;
     match frames with
     | [] => Returned failed_job
     | _ =>
         let gif_name := job_file_name j in
         let written :=
           map (fun frame =>
                  ensure_size
                    (match text_settings with
                     | Some ts => overlay_if ts gif_name (blur_frame blur_settings frame)
                     | None => blur_frame blur_settings frame
                     end))
               frames in
         o <- handle_gif_audio_processing (job_ops j) (job_io j) written
                audio_settings ;;
         Returned {| job_ok := true; job_frames := written; job_audio := None;
                     job_output := Some o |}
     end)
    (fun _ => Returned failed_job).

End Jobs.

Section Bulk.
Context `{TextRendering}.

(** What [process_thread] reads from the GUI object and the file system
    before and around the job loop. *)
Record Gui : Type := {
  processing_mode : string;
  files_to_process : list Job;
  background_image_path : string;
  template_file : Narasi.TemplateFile;
  text_settings : TextSettings;
  blur_text_settings : TextSettings;
  blur_settings : BlurSettings;
  audio_settings : AudioSettings;
  gpu_enabled : bool;
  audio_folder_files : io_result (list string);
  create_output_folder : io_result string;
  narasi_audio_path : string;
  narasi_text_settings : TextSettings;
  narasi_world : Narasi.NarasiWorld;
  narasi_output_path : io_result string
}.

(** What the user and the console see, in order. *)
Inductive Event : Type :=
| EvProgress (current total : nat) (name : string)
| EvSuccess (name : string)
| EvGifFailed (name : string)
| EvError (name : string) (e : string).

Record BulkResult : Type := {
  events : list Event;
  status : string
}.

Definition is_greenscreen (mode : string) : bool := String.eqb mode "greenscreen".

(** The body of the [try] inside the [for] loop, after [update_progress]:
    [true] when [successful_files] is incremented. *)
Definition run_job (g : Gui) (template_mask : Mask) (ts : TextSettings)
    (j : Job) : outcome bool :=
  if job_is_gif j then
    r <- (if is_greenscreen (processing_mode g) then
            process_gif_to_mp4_greenscreen j (template_file g) template_mask ts
              (audio_settings g)
          else
            process_gif_to_mp4_blur j (blur_settings g) (Some ts) (audio_settings g)) ;;
    Returned (job_ok r)
  else
    _ <- (if is_greenscreen (processing_mode g) then
            process_single_video_greenscreen j (template_file g) template_mask ts
              (audio_settings g)
          else
            process_single_video_blur j (blur_settings g) (Some ts) (audio_settings g)) ;;
    Returned true.

(** [for i, (folder_path, file_name) in enumerate(files_to_process)]. *)
Fixpoint job_loop (g : Gui) (template_mask : Mask) (ts : TextSettings)
    (total_files : nat) (jobs : list Job) (i : nat) (successful_files : nat)
    (evs : list Event) : outcome (nat * list Event) :=
  match jobs with
  | [] => Returned (successful_files, evs)
  | j :: rest =>
      let name := job_file_name j in
      let evs := evs ++ [EvProgress i total_files name] in
      match run_job g template_mask ts j with
      | Returned true =>
          job_loop g template_mask ts total_files rest (S i)
            (S successful_files) (evs ++ [EvSuccess name])
      | Returned false =>
          job_loop g template_mask ts total_files rest (S i)
            successful_files (evs ++ [EvGifFailed name])
      | Raised e =>
          job_loop g template_mask ts total_files rest (S i)
            successful_files (evs ++ [EvError name e])
      | OutOfFuel => OutOfFuel
      end
  end.

Definition count_gifs (jobs : list Job) : nat :=
  List.length (filter job_is_gif jobs).
Definition count_videos (jobs : list Job) : nat :=
  List.length (filter (fun j => negb (job_is_gif j)) jobs).

Definition str_Z (z : Z) : string := NilZero.string_of_int (Z.to_int z).
Definition bool_text (b : bool) : string := (if b then "Enabled" else "Disabled")%string.
Definition color_of (ts : TextSettings) : string :=
  match color ts with Some c => c | None => "#000000"%string end.

Definition file_info (jobs : list Job) : string :=
  Py.join " + "
    ((if Nat.ltb 0 (count_videos jobs)
      then [(Py.str_nat (count_videos jobs) ++ " videos")%string] else []) ++
     (if Nat.ltb 0 (count_gifs jobs)
      then [(Py.str_nat (count_gifs jobs) ++ " GIFs")%string] else [])).

(** The text after [successful/total files berhasil diproses]. *)
Definition done_suffix (g : Gui) (ts : TextSettings) (output_folder : string) : string :=
  let greenscreen := is_greenscreen (processing_mode g) in
  let mode_text := (if greenscreen then "Green Screen" else "Blur Background")%string in
  let gpu_info := (" (GPU: " ++ bool_text (gpu_enabled g) ++ ")")%string in
  let a := audio_settings g in
  let audio_info :=
    if dual_audio_enabled a then
      (" (Dual Audio: Original " ++ str_Z (original_volume a) ++ "% + Background "
         ++ str_Z (background_volume a) ++ "%)")%string
    else if audio_enabled a then
      (" (Background Music: " ++ str_Z (background_volume a) ++ "%)")%string
    else " (Original Audio Only)"%string in
  let template_info :=
    if andb greenscreen (truthy (background_image_path g)) then
      (" with " ++ (if PyStr.is_gif_path (background_image_path g)
                   then "GIF Template" else "Static Template"))%string
    else ""%string in
  let text_info :=
    if andb (orb greenscreen (String.eqb (processing_mode g) "blur")) (enabled ts)
    then (" + Text Overlay (Color: " ++ color_of ts ++ ")")%string
    else ""%string in
  (" files berhasil diproses (" ++ file_info (files_to_process g) ++ ") dengan mode "
     ++ mode_text ++ template_info ++ text_info ++ gpu_info ++ audio_info
     ++ ". Output: MP4 files di " ++ output_folder)%string.

(** The final [status_label] text. *)
Definition done_status (successful_files total_files : nat) (suffix : string) : string :=
  ("Selesai! " ++ Py.str_nat successful_files ++ "/" ++ Py.str_nat total_files
     ++ suffix)%string.

(** [self.gui.status_label.config(text=msg); return] before any job. *)
Definition stop_with (msg : string) : outcome BulkResult :=
  Returned {| events := []; status := msg |}.

(** [VideoProcessor.process_narasi_mode]: one job for the whole batch. *)
Definition process_narasi_mode (g : Gui) : outcome BulkResult :=
  try_except
    (if negb (truthy (background_image_path g)) then
       stop_with "Pilih template terlebih dahulu!"
     else if negb (truthy (narasi_audio_path g)) then
       stop_with "Pilih file audio untuk Narasi Mode!"
     else
       let ts := narasi_text_settings g in
       output_path <- narasi_output_path g ;;
       let started := [EvProgress 0 1 "Narasi Mode Processing..."] in
       r <- Narasi.process_narasi_mode (narasi_world g) (Some ts) ;;
       if Narasi.success r then
         let template_type :=
           (if PyStr.is_gif_path (background_image_path g)
            then "GIF Template" else "Static Template")%string in
         let gpu_info := (" (GPU: " ++ bool_text (gpu_enabled g) ++ ")")%string in
         let text_info :=
           (if enabled ts
            then " + Text Overlay (Color: " ++ color_of ts ++ ")" else "")%string in
         Returned
           {| events := started ++ [EvProgress 1 1 "Selesai!"];
              status :=
                ("Selesai! Narasi Mode berhasil: "
                   ++ Py.str_nat (List.length (files_to_process g)) ++ " files ("
                   ++ file_info (files_to_process g) ++ ") digabung dengan "
                   ++ template_type ++ text_info ++ gpu_info ++ ". Output: "
                   ++ output_path)%string |}
       else
         Returned {| events := started;
                     status := "❌ Narasi Mode processing failed!" |})
    (fun e => Returned {| events := [];
                          status := ("Error Narasi Mode: " ++ e)%string |}).

(** Mode set-up of [process_thread]: the shared mask and the text
    settings of the mode, or the message of an early return. *)
Definition mode_setup (g : Gui) : outcome (string + Mask * TextSettings) :=
  if is_greenscreen (processing_mode g) then
    template_for_mask <- get_template_for_processing (template_file g) ;;
    let template_for_mask := resize template_for_mask (FRAME_WIDTH, FRAME_HEIGHT) in
    let template_mask := create_green_screen_mask template_for_mask in
    if N.eqb (np_sum template_mask) 0 then
      Returned (inl "Tidak ada green screen terdeteksi di template!"%string)
    else Returned (inr (template_mask, text_settings g))
  else Returned (inr ([], blur_text_settings g)).

(** Validation of the audio folder; [None] lets the batch go on. *)
Definition audio_validation (g : Gui) : outcome (option string) :=
  let a := audio_settings g in
  if orb (audio_enabled a) (dual_audio_enabled a) then
    if negb (truthy (folder_path a)) then
      Returned (Some "Pilih folder audio terlebih dahulu!"%string)
    else
      audio_files <- audio_folder_files g ;;
      match audio_files with
      | [] => Returned (Some "Tidak ada file audio ditemukan di folder!"%string)
      | _ => Returned None
      end
  else Returned None.

(** The [try] block of [process_thread]. *)
Definition process_thread_try (g : Gui) : outcome BulkResult :=
  match files_to_process g with
  | [] => stop_with "Pilih folder atau file terlebih dahulu!"
  | _ =>
      if String.eqb (processing_mode g) "narasi" then process_narasi_mode g
      else if andb (is_greenscreen (processing_mode g))
                   (negb (truthy (background_image_path g))) then
        stop_with "Pilih template terlebih dahulu!"
      else
        setup <- mode_setup g ;;
        match setup with
        | inl msg => stop_with msg
        | inr (template_mask, ts) =>
            invalid <- audio_validation g ;;
            match invalid with
            | Some msg => stop_with msg
            | None =>
                output_folder <- create_output_folder g ;;
                let total_files := List.length (files_to_process g) in
                r <- job_loop g template_mask ts total_files (files_to_process g)
                       0%nat 0%nat [] ;;
                Returned
                  {| events := snd r ++ [EvProgress total_files total_files "Selesai!"];
                     status := done_status (fst r) total_files
                                 (done_suffix g ts output_folder) |}
            end
        end
  end.

(** [process_videos_bulk]: the worker thread's function. *)
Definition process_videos_bulk (g : Gui) : outcome BulkResult :=
  try_except (process_thread_try g)
    (fun e => Returned {| events := []; status := ("Error: " ++ e)%string |}).

End Bulk.
End Processor.

(** ** [gui_components.py] *)

Module Gui.

(** *** Audio mode widgets *)

Inductive WidgetState : Type := NORMAL | DISABLED.

(** The two Tk variables and the widgets the handlers reconfigure. *)
Record AudioPanel : Type := {
  audio_enabled : bool;
  dual_audio_enabled : bool;
  select_audio_folder_btn : WidgetState;
  background_volume_scale : WidgetState;
  original_volume_scale : WidgetState;
  audio_folder_label_fg : string
}.

Definition on_audio_mode_change (p : AudioPanel) : AudioPanel :=
  if audio_enabled p then
    {| audio_enabled := audio_enabled p;
       dual_audio_enabled := false;
       select_audio_folder_btn := NORMAL;
       background_volume_scale := NORMAL;
       original_volume_scale := DISABLED;
       audio_folder_label_fg := "#2c3e50" |}
  else
    {| audio_enabled := audio_enabled p;
       dual_audio_enabled := false;
       select_audio_folder_btn := DISABLED;
       background_volume_scale := DISABLED;
       original_volume_scale := DISABLED;
       audio_folder_label_fg := "#7f8c8d" |}.

Definition on_dual_audio_change (p : AudioPanel) : AudioPanel :=
  if dual_audio_enabled p then
    {| audio_enabled := false;
       dual_audio_enabled := dual_audio_enabled p;
       select_audio_folder_btn := NORMAL;
       background_volume_scale := NORMAL;
       original_volume_scale := NORMAL;
       audio_folder_label_fg := "#2c3e50" |}
  else if negb (audio_enabled p) then
    {| audio_enabled := audio_enabled p;
       dual_audio_enabled := dual_audio_enabled p;
       select_audio_folder_btn := DISABLED;
       background_volume_scale := DISABLED;
       original_volume_scale := DISABLED;
       audio_folder_label_fg := "#7f8c8d" |}
  else
    {| audio_enabled := audio_enabled p;
       dual_audio_enabled := dual_audio_enabled p;
       select_audio_folder_btn := select_audio_folder_btn p;
       background_volume_scale := background_volume_scale p;
       original_volume_scale := DISABLED;
       audio_folder_label_fg := audio_folder_label_fg p |}.

(** [variable.set(v)] done by Tk before the widget's command runs. *)
Definition set_audio_enabled (v : bool) (p : AudioPanel) : AudioPanel :=
  {| audio_enabled := v;
     dual_audio_enabled := dual_audio_enabled p;
     select_audio_folder_btn := select_audio_folder_btn p;
     background_volume_scale := background_volume_scale p;
     original_volume_scale := original_volume_scale p;
     audio_folder_label_fg := audio_folder_label_fg p |}.

Definition set_dual_audio_enabled (v : bool) (p : AudioPanel) : AudioPanel :=
  {| audio_enabled := audio_enabled p;
     dual_audio_enabled := v;
     select_audio_folder_btn := select_audio_folder_btn p;
     background_volume_scale := background_volume_scale p;
     original_volume_scale := original_volume_scale p;
     audio_folder_label_fg := audio_folder_label_fg p |}.

(** User actions on the two radio buttons and the check button. *)
Inductive AudioEvent : Type :=
| SelectOriginalOnly
| SelectBackgroundOnly
| ToggleDualAudio.

(** A radio button stores its [value] in the variable, a check button
    flips its variable; then the [command] callback runs. *)
Definition handle (p : AudioPanel) (e : AudioEvent) : AudioPanel :=
  match e with
  | SelectOriginalOnly => on_audio_mode_change (set_audio_enabled false p)
  | SelectBackgroundOnly => on_audio_mode_change (set_audio_enabled true p)
  | ToggleDualAudio =>
      on_dual_audio_change (set_dual_audio_enabled (negb (dual_audio_enabled p)) p)
  end.

Definition run (p : AudioPanel) (es : list AudioEvent) : AudioPanel :=
  fold_left handle es p.

(** The panel as [create_audio_section] leaves it: both variables
    [False], widgets created disabled, then [on_audio_mode_change()]. *)
Definition initial_panel : AudioPanel :=
  on_audio_mode_change
    {| audio_enabled := false;
       dual_audio_enabled := false;
       select_audio_folder_btn := DISABLED;
       background_volume_scale := DISABLED;
       original_volume_scale := DISABLED;
       audio_folder_label_fg := "#7f8c8d" |}.

(** At most one of the two modes is active. *)
Definition exclusive (p : AudioPanel) : Prop :=
  andb (audio_enabled p) (dual_audio_enabled p) = false.

(** *** Blur preview geometry ([_update_blur_preview_from_path]) *)

Definition preview_width : Z := 160.
Definition preview_height : Z := 285.

(** The blur controls read by the preview. *)
Record BlurControls : Type := {
  crop_top : Z;
  crop_bottom : Z;
  video_x_position : Z;
  video_y_position : Z
}.

(** Where the scaled inset is pasted. *)
Record Inset : Type := {
  x_offset : Z;
  y_offset : Z;
  new_width : Z;
  new_height : Z
}.

(** Length of the numpy slice [a[lo:hi]] of an axis of length [n], for
    non-negative bounds. *)
Definition slice_len (n lo hi : Z) : Z :=
  Z.max 0 (Z.min hi n - Z.min lo n).

(** Lines 1172-1203: crop, scale and position. [h], [w] are
    [frame.shape[:2]]. *)
Definition inset_geometry (h w : Z) (c : BlurControls) : outcome Inset :=
  let crop_top_px := Py.int (inject_Z (h * crop_top c) / 100)%Q in
  let crop_bottom_px := Py.int (inject_Z (h * crop_bottom c) / 100)%Q in
  let cropped_h := slice_len h crop_top_px (h - crop_bottom_px) in
  let cropped_w := w in
  let target_ratio := (9 # 16)%Q in
  if cropped_h =? 0 then Raised "division by zero"
  else
    let current_ratio := (inject_Z cropped_w / inject_Z cropped_h)%Q in
    sized <-
      (if Qlt_le_dec target_ratio current_ratio then
         let new_height := Py.int (inject_Z preview_height * (6 # 10))%Q in
         let new_width := Py.int (inject_Z new_height * current_ratio)%Q in
         Returned (new_width, new_height)
       else if Qeq_bool current_ratio 0 then Raised "division by zero"
       else
         let new_width := Py.int (inject_Z preview_width * (7 # 10))%Q in
         let new_height := Py.int (inject_Z new_width / current_ratio)%Q in
         Returned (new_width, new_height)) ;;
    let '(new_width, new_height) := sized in
    let x_percent := (inject_Z (video_x_position c) / 100)%Q in
    let y_percent := (inject_Z (video_y_position c) / 100)%Q in
    let max_x := preview_width - new_width in
    let max_y := preview_height - new_height in
    let x_offset := if 0 <? max_x then Py.int (x_percent * inject_Z max_x)%Q else 0 in
    let y_offset := if 0 <? max_y then Py.int (y_percent * inject_Z max_y)%Q else 0 in
    let x_offset := Z.max 0 (Z.min x_offset max_x) in
    let y_offset := Z.max 0 (Z.min y_offset max_y) in
    Returned {| x_offset := x_offset; y_offset := y_offset;
                new_width := new_width; new_height := new_height |}.

(** The inset lies inside the preview canvas. *)
Definition contained (r : Inset) : Prop :=
  0 <= x_offset r /\ x_offset r + new_width r <= preview_width /\
  0 <= y_offset r /\ y_offset r + new_height r <= preview_height.

(** Line 1207, [result[y:y+nh, x:x+nw] = resized_video]: numpy raises
    when the target slice and the inset differ in shape. *)
Definition paste_inset (r : Inset) : outcome Inset :=
  let rows := slice_len preview_height (y_offset r) (y_offset r + new_height r) in
  let cols := slice_len preview_width (x_offset r) (x_offset r + new_width r) in
  if andb (rows =? new_height r) (cols =? new_width r) then Returned r
  else Raised "could not broadcast input array".

(** Geometry followed by the paste. *)
Definition blur_preview_inset (h w : Z) (c : BlurControls) : outcome Inset :=
  r <- inset_geometry h w c ;;
  paste_inset r.

End Gui.

(** ** Vocabulary of the statements *)

Section LoopVocabulary.
Context `{TextOverlay.TextRendering}.
Import TextOverlay Narasi.

(** Both synchronisation loops are this loop for a per-frame [body] that
    may look at [frames_written]. *)
Fixpoint loop_with (body : nat -> Frame -> Frame) (fuel : nat) (target_frames : Z)
    (cap : VideoCapture) (frames_written : nat) (out : list Frame)
    : outcome (nat * list Frame) :=
  match fuel with
  | O => OutOfFuel
  | S fuel' =>
      if Z.of_nat frames_written <? target_frames then
        match read_or_restart cap with
        | (None, _) => Returned (frames_written, out)
        | (Some frame, cap') =>
            loop_with body fuel' target_frames cap' (S frames_written)
              (out ++ [body frames_written frame])
        end
      else Returned (frames_written, out)
  end.

(** What the static-template loop does to one source frame. *)
Definition static_body (template : Frame) (template_mask : Mask)
    (text_settings : option TextSettings) (frame : Frame) : Frame :=
  ensure_size
    (overlay_if_enabled text_settings
       (process_frame_with_green_screen template frame template_mask)).

(** Compositing of a source frame under a given (unscaled) GIF frame:
    the GIF frame is scaled and its own mask is built from it. *)
Definition gif_composite (text_settings : option TextSettings)
    (gif_frame frame : Frame) : Frame :=
  let g := resize gif_frame (FRAME_WIDTH, FRAME_HEIGHT) in
  ensure_size
    (overlay_if_enabled text_settings
       (process_frame_with_green_screen g frame (create_green_screen_mask g))).

Definition gif_body (gif_frames : list Frame) (gif_default : Frame)
    (text_settings : option TextSettings) (frames_written : nat) (frame : Frame)
    : Frame :=
  gif_composite text_settings
    (nth (frames_written mod List.length gif_frames) gif_frames gif_default) frame.

(** The [i]-th frame a looping reader delivers: source frame [i mod N]. *)
Definition looped (frames : list Frame) (d : Frame) (i : nat) : Frame :=
  nth (i mod List.length frames) frames d.

End LoopVocabulary.

Section BatchVocabulary.
Context `{TextOverlay.TextRendering}.
Import TextOverlay Processor.

(** What the console shows for one job once it has been tried. *)
Definition job_report (g : Gui) (template_mask : Mask) (ts : TextSettings)
    (j : Job) : Event :=
  match run_job g template_mask ts j with
  | Returned true => EvSuccess (job_file_name j)
  | Returned false => EvGifFailed (job_file_name j)
  | Raised e => EvError (job_file_name j) e
  | OutOfFuel => EvError (job_file_name j) "out of fuel"
  end.

(** A job counts as successful when its processing call came back
    without an exception (and, for a GIF input, with [True]). *)
Definition job_counted (g : Gui) (template_mask : Mask) (ts : TextSettings)
    (j : Job) : bool :=
  match run_job g template_mask ts j with
  | Returned true => true
  | _ => false
  end.

Definition successes (g : Gui) (template_mask : Mask) (ts : TextSettings)
    (jobs : list Job) : nat :=
  List.length (filter (job_counted g template_mask ts) jobs).

(** Every job in turn, from index [i]: its progress line, then its
    report - whether or not an earlier job raised. *)
Fixpoint batch_events (g : Gui) (template_mask : Mask) (ts : TextSettings)
    (total_files : nat) (jobs : list Job) (i : nat) : list Event :=
  match jobs with
  | [] => []
  | j :: rest =>
      EvProgress i total_files (job_file_name j)
        :: job_report g template_mask ts j
        :: batch_events g template_mask ts total_files rest (S i)
  end.

End BatchVocabulary.

Section NarasiVocabulary.
Context `{TextOverlay.TextRendering}.
Import TextOverlay Narasi.

(** The per-frame work of the compositing step for a given template:
    the GIF body when the path ends in [.gif], the static body otherwise. *)
Definition narasi_body (tpl : TemplateFile) (mask : Mask)
    (ts : option TextSettings) : nat -> Frame -> Frame :=
  if PyStr.is_gif_path (template_path tpl) then
    match extract_gif_frames tpl with
    | g0 :: _ => gif_body (extract_gif_frames tpl) g0 ts
    | [] => fun _ f => f
    end
  else
    match imread tpl with
    | Some t => fun _ => static_body (resize t (FRAME_WIDTH, FRAME_HEIGHT)) mask ts
    | None => fun _ f => f
    end.

(** The first [n] output frames written by index arithmetic: frame [i]
    is the body applied to source frame [i mod N]. *)
Definition frames_by_index (video : VideoFile) (tpl : TemplateFile) (mask : Mask)
    (ts : option TextSettings) (n : nat) : list Frame :=
  match file_frames video with
  | [] => []
  | f0 :: _ =>
      map (fun i => narasi_body tpl mask ts i (looped (file_frames video) f0 i))
          (seq 0 n)
  end.

(** [target_frames] as a count. *)
Definition target_count (video : VideoFile) (T : Q) : nat :=
  Z.to_nat (Py.int (T * inject_Z (Py.int (file_fps video)))%Q).

(** The period after which the output repeats. *)
Definition output_period (video : VideoFile) (tpl : TemplateFile) : nat :=
  if PyStr.is_gif_path (template_path tpl) then
    (List.length (extract_gif_frames tpl) * List.length (file_frames video))%nat
  else List.length (file_frames video).

End NarasiVocabulary.

(** ** Progress display ([update_progress]) and batch vocabulary *)

Module Progress.

(** [progress = (current / total) * 100], the value given to the
    progress bar; a [total] of 0 is a [ZeroDivisionError]. *)
Definition update_progress (current total : nat) : outcome Q :=
  if Nat.eqb total 0 then Raised "division by zero"
  else Returned ((inject_Z (Z.of_nat current) / inject_Z (Z.of_nat total)) * 100)%Q.

End Progress.

Section BatchMoreVocabulary.
Context `{TextOverlay.TextRendering}.
Import TextOverlay Processor.

(** A progress event whose percentage can be computed and lies in
    [0, 100]; other events carry no progress. *)
Definition progress_ok (ev : Event) : Prop :=
  match ev with
  | EvProgress current total _ =>
      exists p, Progress.update_progress current total = Returned p /\
                (0 <= p)%Q /\ (p <= 100)%Q
  | _ => True
  end.

(** The same GUI state with another template selected. *)
Definition with_template (g : Gui) (path : string) (tpl : Narasi.TemplateFile) : Gui :=
  {| processing_mode := processing_mode g;
     files_to_process := files_to_process g;
     background_image_path := path;
     template_file := tpl;
     text_settings := text_settings g;
     blur_text_settings := blur_text_settings g;
     blur_settings := blur_settings g;
     audio_settings := audio_settings g;
     gpu_enabled := gpu_enabled g;
     audio_folder_files := audio_folder_files g;
     create_output_folder := create_output_folder g;
     narasi_audio_path := narasi_audio_path g;
     narasi_text_settings := narasi_text_settings g;
     narasi_world := narasi_world g;
     narasi_output_path := narasi_output_path g |}.

End BatchMoreVocabulary.

(** ** Vocabulary for the GUI statements *)

Section GuiVocabulary.
Import Gui.

Definition state_of (enabled : bool) : WidgetState :=
  if enabled then NORMAL else DISABLED.

(** The widgets show what the two flags say: the original-volume slider
    is usable exactly in dual mode, the background controls exactly when
    background music plays a part. *)
Definition widgets_match (p : AudioPanel) : Prop :=
  let background := orb (audio_enabled p) (dual_audio_enabled p) in
  original_volume_scale p = state_of (dual_audio_enabled p) /\
  background_volume_scale p = state_of background /\
  select_audio_folder_btn p = state_of background /\
  audio_folder_label_fg p = (if background then "#2c3e50" else "#7f8c8d")%string.

(** Height of the cropped frame, as [inset_geometry] computes it. *)
Definition cropped_height (h : Z) (c : BlurControls) : Z :=
  slice_len h (Py.int (inject_Z (h * crop_top c) / 100)%Q)
    (h - Py.int (inject_Z (h * crop_bottom c) / 100)%Q).

(** The same controls with other slider positions. *)
Definition positioned (c : BlurControls) (x y : Z) : BlurControls :=
  {| crop_top := crop_top c; crop_bottom := crop_bottom c;
     video_x_position := x; video_y_position := y |}.

End GuiVocabulary.

Section InsetVocabulary.
Import Gui.

(** The sizing part of [inset_geometry]: scaled width and height. *)
Definition inset_size (h w : Z) (c : BlurControls) : outcome (Z * Z) :=
  let cropped_h := cropped_height h c in
  if cropped_h =? 0 then Raised "division by zero"
  else
    let current_ratio := (inject_Z w / inject_Z cropped_h)%Q in
    if Qlt_le_dec (9 # 16) current_ratio then
      let new_height := Py.int (inject_Z preview_height * (6 # 10))%Q in
      Returned (Py.int (inject_Z new_height * current_ratio)%Q, new_height)
    else if Qeq_bool current_ratio 0 then Raised "division by zero"
    else
      let new_width := Py.int (inject_Z preview_width * (7 # 10))%Q in
      Returned (new_width, Py.int (inject_Z new_width / current_ratio)%Q).

(** The positioning part for one axis: slider value and free room. *)
Definition slider_offset (position room : Z) : Z :=
  let offset :=
    if 0 <? room then Py.int (inject_Z position / 100 * inject_Z room)%Q else 0 in
  Z.max 0 (Z.min offset room).

End InsetVocabulary.

(** ** [concatenate_videos_opencv] ([narasi_processing.py]) *)

Module Concat.
Section Concat.
Context `{Imaging}.

(** An input of the concatenation: the file and the frame size its
    capture reports ([CAP_PROP_FRAME_WIDTH], [CAP_PROP_FRAME_HEIGHT]). *)
Record Input : Type := {
  file : Narasi.VideoFile;
  prop_width : Q;
  prop_height : Q
}.

(** [if frame.shape[:2] != (height, width): frame = cv2.resize(frame, (width, height))]. *)
Definition fit (width height : Z) (frame : Frame) : Frame :=
  let '(h, w) := shape frame in
  if andb (h =? height) (w =? width) then frame
  else resize frame (width, height).

(** The inner [while True] loop over one capture: every frame that can
    be read is fitted and written; both counters go up by one. *)
Fixpoint write_frames (width height : Z) (frames : list Frame)
    (frame_count total_frames : Z) (out : list Frame) : Z * Z * list Frame :=
  match frames with
  | [] => (frame_count, total_frames, out)
  | frame :: rest =>
      write_frames width height rest (frame_count + 1) (total_frames + 1)
        (out ++ [fit width height frame])
  end.

(** The [for] loop over [video_paths]. *)
Fixpoint concat_loop (width height : Z) (videos : list Input)
    (total_frames : Z) (out : list Frame) : Z * list Frame :=
  match videos with
  | [] => (total_frames, out)
  | v :: rest =>
      let '(_, total_frames, out) :=
        write_frames width height (Narasi.file_frames (file v)) 0 total_frames out in
      concat_loop width height rest total_frames out
  end.

(** Returns [(total_duration, total_frames)] and the frames written to
    the output file. An empty list fails at [video_paths[0]]; a
    [target_fps] of 0 fails at the final division. *)
Definition concatenate_videos_opencv (videos : list Input) (target_fps : Z)
    : outcome (Q * Z * list Frame) :=
  match videos with
  | [] => Raised "list index out of range"
  | first :: _ =>
      let width := Py.int (prop_width first) in
      let height := Py.int (prop_height first) in
      let '(total_frames, out) := concat_loop width height videos 0 [] in
      if target_fps =? 0 then Raised "division by zero"
      else Returned ((inject_Z total_frames / inject_Z target_fps)%Q, total_frames, out)
  end.

End Concat.
End Concat.

(** ** [get_gpu_video_writer] ([video_processor.py]) *)

Module Writer.
Section Writer.
Variable Code : Type.

(** [cv2.VideoWriter(path, code, fps, size)]: the constructor raises, or
    gives a writer that is opened or not. The first argument counts the
    constructor calls of one invocation, so that two calls with the same
    codec need not agree. *)
Variable new_writer : nat -> Code -> io_result bool.

(** The four-character code of the mp4v codec, the last fallback. *)
Variable mp4v : Code.

Record VideoWriter : Type := {
  fourcc : Code;
  isOpened : bool
}.

(** The [for] loop over [gpu_config.get_safe_fourcc_codes()], from call
    number [n] on: the first writer that opens is returned; a raising
    constructor is skipped. *)
Fixpoint try_fourcc_options (n : nat) (options : list (string * Code))
    : option VideoWriter :=
  match options with
  | [] => None
  | (_, code) :: rest =>
      match new_writer n code with
      | Ok true => Some {| fourcc := code; isOpened := true |}
      | _ => try_fourcc_options (S n) rest
      end
  end.

Definition get_gpu_video_writer (options : list (string * Code))
    : outcome VideoWriter :=
  match try_fourcc_options 0 options with
  | Some out => Returned out
  | None =>
      match new_writer (List.length options) mp4v with
      | Ok true => Returned {| fourcc := mp4v; isOpened := true |}
      | _ =>
          opened <- new_writer (S (List.length options)) mp4v ;;
          Returned {| fourcc := mp4v; isOpened := opened |}
      end
  end.

End Writer.
End Writer.

(** ** [hex_to_rgb] ([video_processor.py]) *)

Module Color.
Section Color.

(** [int(s, 16)]; [None] is a [ValueError]. *)
Variable int16 : string -> option Z.

(** [s.lstrip('#')]. *)
Fixpoint lstrip_hash (s : string) : string :=
  match s with
  | String c rest => if Ascii.eqb c "#" then lstrip_hash rest else s
  | EmptyString => EmptyString
  end.

(** [tuple(int(hex_color[i:i+2], 16) for i in (0, 2, 4))]. *)
Definition hex_to_rgb (hex_color : string) : outcome (Z * Z * Z) :=
  let hex_color := lstrip_hash hex_color in
  match int16 (substring 0 2 hex_color) with
  | None => Raised "invalid literal for int() with base 16"
  | Some r =>
      match int16 (substring 2 2 hex_color) with
      | None => Raised "invalid literal for int() with base 16"
      | Some g =>
          match int16 (substring 4 2 hex_color) with
          | None => Raised "invalid literal for int() with base 16"
          | Some b => Returned (r, g, b)
          end
      end
  end.

End Color.
End Color.

(** ** Mode panels, file selection ([gui_components.py]) and the
       duration label ([narasi_section.py]) *)

Module Layout.

(** Which frames are packed (visible). All of them exist once
    [setup_gui] has run, so the [hasattr] tests succeed. *)
Record Panels : Type := {
  template_section : bool;
  text_frame : bool;
  blur_frame : bool;
  narasi_section : bool;
  narasi_text_frame : bool;
  audio_note_label : bool;
  narasi_note_label : bool
}.

Definition show_greenscreen_settings (p : Panels) : Panels :=
  {| template_section := true; text_frame := true;
     blur_frame := blur_frame p; narasi_section := narasi_section p;
     narasi_text_frame := narasi_text_frame p;
     audio_note_label := audio_note_label p;
     narasi_note_label := narasi_note_label p |}.

Definition hide_greenscreen_settings (p : Panels) : Panels :=
  {| template_section := false; text_frame := false;
     blur_frame := blur_frame p; narasi_section := narasi_section p;
     narasi_text_frame := narasi_text_frame p;
     audio_note_label := audio_note_label p;
     narasi_note_label := narasi_note_label p |}.

Definition show_blur_settings (p : Panels) : Panels :=
  {| template_section := template_section p; text_frame := text_frame p;
     blur_frame := true; narasi_section := narasi_section p;
     narasi_text_frame := narasi_text_frame p;
     audio_note_label := audio_note_label p;
     narasi_note_label := narasi_note_label p |}.

Definition hide_blur_settings (p : Panels) : Panels :=
  {| template_section := template_section p; text_frame := text_frame p;
     blur_frame := false; narasi_section := narasi_section p;
     narasi_text_frame := narasi_text_frame p;
     audio_note_label := audio_note_label p;
     narasi_note_label := narasi_note_label p |}.

Definition show_narasi_settings (p : Panels) : Panels :=
  {| template_section := true; text_frame := text_frame p;
     blur_frame := blur_frame p; narasi_section := true;
     narasi_text_frame := true;
     audio_note_label := audio_note_label p;
     narasi_note_label := narasi_note_label p |}.

Definition hide_narasi_settings (p : Panels) : Panels :=
  {| template_section := template_section p; text_frame := text_frame p;
     blur_frame := blur_frame p; narasi_section := false;
     narasi_text_frame := false;
     audio_note_label := audio_note_label p;
     narasi_note_label := narasi_note_label p |}.

Definition set_notes (visible : bool) (p : Panels) : Panels :=
  {| template_section := template_section p; text_frame := text_frame p;
     blur_frame := blur_frame p; narasi_section := narasi_section p;
     narasi_text_frame := narasi_text_frame p;
     audio_note_label := visible; narasi_note_label := visible |}.

(** One call of [on_mode_change]: the mode read from
    [self.processing_mode], and what the two calls into other widgets do,
    [self.mode_section.update_description(mode)] and, inside
    [update_preview], the template preview. *)
Record ModeChange : Type := {
  mode : string;
  update_description : io_result unit;
  template_preview : io_result unit
}.

(** [update_preview]: only greenscreen and narasi redraw the template
    preview. *)
Definition update_preview (e : ModeChange) : io_result unit :=
  if orb (String.eqb (mode e) "greenscreen") (String.eqb (mode e) "narasi")
  then template_preview e else Ok tt.

(** [on_mode_change]. The result is the panels the call leaves behind; an
    exception of one of the two calls ends the method at that point. *)
Definition on_mode_change (e : ModeChange) (p : Panels) : Panels :=
  match update_description e with
  | Err _ => p
  | Ok _ =>
      let p :=
        if String.eqb (mode e) "greenscreen" then
          hide_narasi_settings (hide_blur_settings (show_greenscreen_settings p))
        else if String.eqb (mode e) "blur" then
          hide_narasi_settings (show_blur_settings (hide_greenscreen_settings p))
        else if String.eqb (mode e) "narasi" then
          hide_blur_settings (show_narasi_settings p)
        else p in
      match update_preview e with
      | Err _ => p
      | Ok _ => set_notes (String.eqb (mode e) "narasi") p
      end
  end.

(** The user picks one mode after the other. *)
Definition run (p : Panels) (changes : list ModeChange) : Panels :=
  fold_left (fun q e => on_mode_change e q) changes p.

End Layout.

Module Selection.

Record Selection : Type := {
  folder_path : string;
  selected_files : list string;
  is_single_file_mode : bool
}.


(** [select_folder], for the path the dialog returned (empty when the
    dialog was cancelled). *)
Definition select_folder (path : string) (s : Selection) : Selection :=
  if negb (String.eqb path "") then
    {| folder_path := path; selected_files := []; is_single_file_mode := false |}
  else s.

(** [select_files], for the files the dialog returned. *)
Definition select_files (files : list string) (s : Selection) : Selection :=
  match files with
  | [] => s
  | _ => {| folder_path := ""; selected_files := files; is_single_file_mode := true |}
  end.

Inductive Pick : Type :=
| PickFolder (path : string)
| PickFiles (files : list string).

Definition pick (s : Selection) (e : Pick) : Selection :=
  match e with
  | PickFolder path => select_folder path s
  | PickFiles files => select_files files s
  end.

Definition run (s : Selection) (es : list Pick) : Selection := fold_left pick es s.

Section Files.
(** [os.path.dirname], [os.path.basename] and the folder listings of
    [file_operations], which may raise. *)
Variables dirname basename : string -> string.
Variables get_video_files get_gif_files : string -> io_result (list string).


End Files.
End Selection.

Module NarasiSection.

(** [minutes = int(duration // 60)], [seconds = int(duration % 60)]. *)
Definition minutes (duration : Q) : Z :=
  Py.int (inject_Z (Qfloor (duration / 60))).
Definition seconds (duration : Q) : Z :=
  Py.int (Moviepy.fmod duration 60).

(** [f"{n:02d}"]: zero-padded to width two. *)
Definition two_digits (n : Z) : string :=
  if andb (0 <=? n) (n <? 10) then ("0" ++ Processor.str_Z n)%string
  else Processor.str_Z n.

(** The text of [audio_info_label] after a file was chosen. *)
Definition audio_info (clip : io_result Moviepy.AudioClip) : string :=
  match clip with
  | Ok audio_clip =>
      let duration := Moviepy.duration audio_clip in
      ("Duration: " ++ Processor.str_Z (minutes duration) ++ ":"
         ++ two_digits (seconds duration)
         ++ " - Final video will match this duration")%string
  | Err e => ("Could not read audio duration: " ++ e)%string
  end.

End NarasiSection.

Section OverlayVocabulary.
Import TextOverlay.

(** The vertical anchor [add_text_overlay] computes for a block of
    [n] lines. *)
Definition text_base_y (ts : TextSettings) (n : nat) : Z :=
  let y_percent := (inject_Z (y_position ts) / 100)%Q in
  let line_height := size ts + 10 in
  let total_text_height := Z.of_nat n * line_height in
  let base_y :=
    Py.int (y_percent * inject_Z (FRAME_HEIGHT - total_text_height - 40))%Q in
  Z.max 20 (Z.min base_y (FRAME_HEIGHT - total_text_height - 20)).

End OverlayVocabulary.

Section ConcatVocabulary.
Context `{Imaging}.

(** All frames of all inputs, in input order. *)
Definition all_frames (videos : list Concat.Input) : list Frame :=
  flat_map (fun v => Narasi.file_frames (Concat.file v)) videos.

End ConcatVocabulary.

Section SelectionVocabulary.
Import Selection.


End SelectionVocabulary.

(** ** A small concrete instance of the interfaces

    Frames are numbers; compositing records template and source in the
    result, so that the examples below can tell frames apart. *)

Module Example.
Import TextOverlay.

#[export] Instance imaging : Imaging := {|
  Frame := nat;
  shape := fun _ => (FRAME_HEIGHT, FRAME_WIDTH);
  resize := fun f _ => f;
  create_green_screen_mask := fun f => if Nat.even f then [255%N; 0%N] else [0%N; 0%N];
  process_frame_with_green_screen := fun t f _ => (100 * t + f)%nat;
  process_blur_frame := fun f _ _ _ _ _ _ => f
|}.

#[export] Instance pil : Pil := {|
  Image := nat;
  Font := unit;
  Emoji := unit;
  fromarray := fun f => Some f;
  toarray := fun i => Some i;
  truetype := fun _ _ => None;
  load_default := tt;
  splitext_root := fun s => s;
  draw_text := fun img xy s _ _ =>
    Some (img + Z.to_nat (fst xy) + Z.to_nat (snd xy) + String.length s)%nat;
  paste := fun img _ _ => Some img
|}.

#[export] Instance text_rendering : TextRendering := {|
  smart_text_wrap := fun s _ _ _ _ => Some [s];
  render_text_with_emoji_multiline := fun _ lines _ _ _ base_y _ _ =>
    Some (map (fun l => {| line_y := base_y; x_start := 40; line_emoji_size := 80;
                           items := [TextItem l 0] |}) lines)
|}.

Definition settings (x : Z) : TextSettings :=
  {| enabled := true; x_position := x; y_position := 10; size := 65;
     font := "Arial"; color := Some "#000000"%string |}.

(** A static template file holding frame 7. *)
Definition static_template : Narasi.TemplateFile :=
  {| Narasi.template_path := "template.png";
     Narasi.imread := Some 7%nat;
     Narasi.extract_gif_frames := [] |}.

(** An animated template of three frames. *)
Definition gif_template : Narasi.TemplateFile :=
  {| Narasi.template_path := "template.GIF";
     Narasi.imread := None;
     Narasi.extract_gif_frames := [4; 5; 6]%nat |}.

(** A two-frame source at 30 fps. *)
Definition two_frames : Narasi.VideoFile :=
  {| Narasi.file_frames := [1; 2]%nat; Narasi.file_fps := 30;
     Narasi.file_frame_count := 2 |}.

(** A source with container metadata but no decodable frame. *)
Definition no_frames : Narasi.VideoFile :=
  {| Narasi.file_frames := []; Narasi.file_fps := 30;
     Narasi.file_frame_count := 0 |}.

(** A static template whose frame 8 has key-coloured pixels. *)
Definition green_template : Narasi.TemplateFile :=
  {| Narasi.template_path := "green.png";
     Narasi.imread := Some 8%nat;
     Narasi.extract_gif_frames := [] |}.

(** Audio calls that all succeed, and audio calls that all raise. *)
Definition ops_ok : Processor.AudioOps :=
  {| Processor.path_exists := fun _ => true;
     Processor.get_audio_files := fun _ => Ok ["song.mp3"%string];
     Processor.random_choice := fun l => hd ""%string l;
     Processor.path_join := fun a b => (a ++ "/" ++ b)%string;
     Processor.add_dual_audio_to_video := fun _ _ _ => Ok true;
     Processor.add_background_music_to_video := fun _ _ => Ok true;
     Processor.add_audio_to_video := Ok true;
     Processor.temp_exists := true;
     Processor.copy_temp := Ok tt;
     Processor.move_temp := Ok tt;
     Processor.remove_temp := Ok tt |}.


(** A narration track of a tenth of a second. *)
Definition narration : Moviepy.AudioClip :=
  {| Moviepy.duration := 1 # 10; Moviepy.make_frame := fun t => t |}.

Definition io_ok : Narasi.AudioIO :=
  {| Narasi.open_video_clip := fun frames =>
       Ok {| Moviepy.video_duration := 2; Moviepy.video_frames := frames |};
     Narasi.open_audio_clip := Ok narration;
     Narasi.write_videofile := fun _ _ => Ok tt;
     Narasi.copy2 := Ok tt |}.


Definition narasi_world (tpl : Narasi.TemplateFile) (io : Narasi.AudioIO)
    : Narasi.NarasiWorld :=
  {| Narasi.concatenated := Ok two_frames;
     Narasi.template_file := tpl;
     Narasi.audio_io := io |}.

Definition audio_off : Processor.AudioSettings :=
  {| Processor.audio_enabled := false; Processor.dual_audio_enabled := false;
     Processor.folder_path := ""; Processor.original_volume := 100;
     Processor.background_volume := 50 |}.

Definition audio_dual : Processor.AudioSettings :=
  {| Processor.audio_enabled := false; Processor.dual_audio_enabled := true;
     Processor.folder_path := "music"; Processor.original_volume := 100;
     Processor.background_volume := 50 |}.

Definition blur_defaults : Processor.BlurSettings :=
  {| Processor.crop_top := 0; Processor.crop_bottom := 0;
     Processor.video_x_position := 50; Processor.video_y_position := 50 |}.

(** Three inputs: a video that processes, a video whose properties cannot
    be read (the call raises), and a GIF without frames (reported as
    failed). *)
Definition job (name : string) (is_gif : bool) (properties : io_result Q)
    : Processor.Job :=
  {| Processor.job_folder := "in";
     Processor.job_file_name := name;
     Processor.job_is_gif := is_gif;
     Processor.job_video := two_frames;
     Processor.job_video_properties := properties;
     Processor.job_gif_frames := Ok [];
     Processor.job_gif_template_video := Ok true;
     Processor.job_ops := ops_ok;
     Processor.job_io := io_ok |}.

Definition three_jobs : list Processor.Job :=
  [job "a.mp4" false (Ok 30%Q); job "b.mp4" false (Err "cannot open");
   job "c.gif" true (Ok 10%Q)].

(** Blur preview controls at their defaults: no crop, centred. *)
Definition centred : Gui.BlurControls :=
  {| Gui.crop_top := 0; Gui.crop_bottom := 0;
     Gui.video_x_position := 50; Gui.video_y_position := 50 |}.

Definition gui (mode : string) (tpl : Narasi.TemplateFile)
    (io : Narasi.AudioIO) : Processor.Gui :=
  {| Processor.processing_mode := mode;
     Processor.files_to_process := three_jobs;
     Processor.background_image_path := Narasi.template_path tpl;
     Processor.template_file := tpl;
     Processor.text_settings := settings 50;
     Processor.blur_text_settings := settings 50;
     Processor.blur_settings := blur_defaults;
     Processor.audio_settings := audio_off;
     Processor.gpu_enabled := false;
     Processor.audio_folder_files := Ok [];
     Processor.create_output_folder := Ok "out"%string;
     Processor.narasi_audio_path := "voice.mp3";
     Processor.narasi_text_settings := settings 50;
     Processor.narasi_world := narasi_world tpl io;
     Processor.narasi_output_path := Ok "out/narasi_output.mp4"%string |}.

(** The file of a capture that failed to open: no frames, rate 0. *)
Definition unopened : Narasi.VideoFile :=
  {| Narasi.file_frames := []; Narasi.file_fps := 0;
     Narasi.file_frame_count := 0 |}.

Definition narasi_world_of (video : io_result Narasi.VideoFile)
    (tpl : Narasi.TemplateFile) (io : Narasi.AudioIO) : Narasi.NarasiWorld :=
  {| Narasi.concatenated := video;
     Narasi.template_file := tpl;
     Narasi.audio_io := io |}.


(** A GIF input of two frames. *)
Definition gif_job : Processor.Job :=
  {| Processor.job_folder := "in";
     Processor.job_file_name := "d.gif";
     Processor.job_is_gif := true;
     Processor.job_video := two_frames;
     Processor.job_video_properties := Ok 10%Q;
     Processor.job_gif_frames := Ok [1; 2]%nat;
     Processor.job_gif_template_video := Ok true;
     Processor.job_ops := ops_ok;
     Processor.job_io := io_ok |}.

(** A video input for which compositing under an animated template
    reports failure. *)
Definition rejected_job : Processor.Job :=
  {| Processor.job_folder := "in";
     Processor.job_file_name := "e.mp4";
     Processor.job_is_gif := false;
     Processor.job_video := two_frames;
     Processor.job_video_properties := Ok 30%Q;
     Processor.job_gif_frames := Ok [];
     Processor.job_gif_template_video := Ok false;
     Processor.job_ops := ops_ok;
     Processor.job_io := io_ok |}.



(** Dual audio switched on without an audio folder. *)
Definition audio_no_folder : Processor.AudioSettings :=
  {| Processor.audio_enabled := false; Processor.dual_audio_enabled := true;
     Processor.folder_path := ""; Processor.original_volume := 100;
     Processor.background_volume := 50 |}.

(** A blur batch with given audio settings and audio folder content. *)
Definition gui_with_audio (a : Processor.AudioSettings)
    (folder_files : io_result (list string)) : Processor.Gui :=
  {| Processor.processing_mode := "blur";
     Processor.files_to_process := three_jobs;
     Processor.background_image_path := "";
     Processor.template_file := static_template;
     Processor.text_settings := settings 50;
     Processor.blur_text_settings := settings 50;
     Processor.blur_settings := blur_defaults;
     Processor.audio_settings := a;
     Processor.gpu_enabled := false;
     Processor.audio_folder_files := folder_files;
     Processor.create_output_folder := Ok "out"%string;
     Processor.narasi_audio_path := "";
     Processor.narasi_text_settings := settings 50;
     Processor.narasi_world := narasi_world static_template io_ok;
     Processor.narasi_output_path := Ok "out/narasi_output.mp4"%string |}.

(** Frames that carry their size: (height, width, content). *)
Definition sized_imaging : Imaging := {|
  Frame := Z * Z * nat;
  shape := fun f => (fst (fst f), snd (fst f));
  resize := fun f wh => (snd wh, fst wh, snd f);
  create_green_screen_mask := fun _ => [255%N];
  process_frame_with_green_screen := fun _ f _ => f;
  process_blur_frame := fun f _ _ _ _ _ _ => f
|}.

(** Two inputs of different frame sizes. *)
Definition sized_frames_a : list (@Frame sized_imaging) :=
  [(4, 3, 1%nat); (4, 3, 2%nat)].
Definition sized_frames_b : list (@Frame sized_imaging) := [(2, 2, 3%nat)].

Definition sized_first : @Concat.Input sized_imaging :=
  {| Concat.file :=
       @Narasi.Build_VideoFile sized_imaging sized_frames_a 30 2;
     Concat.prop_width := 3; Concat.prop_height := 4 |}.

Definition sized_second : @Concat.Input sized_imaging :=
  {| Concat.file :=
       @Narasi.Build_VideoFile sized_imaging sized_frames_b 25 1;
     Concat.prop_width := 2; Concat.prop_height := 2 |}.

(** A reading of hexadecimal digits for [int(s, 16)]. *)
Definition hex_digit (c : ascii) : option Z :=
  let n := Z.of_nat (nat_of_ascii c) in
  if andb (48 <=? n) (n <=? 57) then Some (n - 48)
  else if andb (97 <=? n) (n <=? 102) then Some (n - 87)
  else if andb (65 <=? n) (n <=? 70) then Some (n - 55)
  else None.

Fixpoint hex_value (acc : Z) (s : string) : option Z :=
  match s with
  | EmptyString => Some acc
  | String c rest =>
      match hex_digit c with
      | Some d => hex_value (16 * acc + d) rest
      | None => None
      end
  end.

Definition int16 (s : string) : option Z :=
  if String.eqb s "" then None else hex_value 0 s.

End Example.

(** * Theorems *)

(** Case analysis on every call result a goal still branches on: library
    calls first, then the remaining tests. *)
Ltac split_calls :=
  repeat (cbn [bind lift_io try_except andb orb negb];
          match goal with
          | |- context [lift_io ?x] => destruct x eqn:?
          | |- context [if ?b then _ else _] => destruct b eqn:?
          | |- context [match ?x with _ => _ end] => destruct x eqn:?
          end);
  cbn [bind lift_io try_except andb orb negb].

(** ** The synchronisation loops *)

Section LoopFacts.
Context `{TextOverlay.TextRendering}.
Import TextOverlay Narasi.

Lemma static_loop_is_loop_with fuel template mask ts target cap w out :
  static_loop fuel template mask ts target cap w out =
  loop_with (fun _ => static_body template mask ts) fuel target cap w out.
Proof.
  revert cap w out.
  induction fuel as [|fuel IH]; intros cap w out; simpl; [reflexivity|].
  destruct (Z.of_nat w <? target); [|reflexivity].
  destruct (read_or_restart cap) as [[frame|] cap']; [|reflexivity].
  apply IH.
Qed.

Lemma gif_loop_is_loop_with fuel gifs g0 ts target cap w out :
  gif_loop fuel gifs g0 ts target cap w out =
  loop_with (gif_body gifs g0 ts) fuel target cap w out.
Proof.
  revert cap w out.
  induction fuel as [|fuel IH]; intros cap w out; simpl; [reflexivity|].
  destruct (Z.of_nat w <? target); [|reflexivity].
  destruct (read_or_restart cap) as [[frame|] cap']; [|reflexivity].
  apply IH.
Qed.

(** A source without frames: the second read fails as well. *)
Lemma read_or_restart_empty cap :
  cap_frames cap = [] -> fst (read_or_restart cap) = None.
Proof.
  intros E. unfold read_or_restart, cap_read.
  rewrite E. destruct (cap_pos cap); simpl; rewrite E; reflexivity.
Qed.

(** A non-empty source read at a position in step with [w]: the read
    delivers frame [w mod N] and stays in step. *)
Lemma read_or_restart_in_step cap d w :
  let N := List.length (cap_frames cap) in
  (0 < N)%nat -> (cap_pos cap <= N)%nat ->
  (cap_pos cap mod N = w mod N)%nat ->
  exists cap',
    read_or_restart cap = (Some (looped (cap_frames cap) d w), cap') /\
    cap_frames cap' = cap_frames cap /\
    (cap_pos cap' <= N)%nat /\
    (cap_pos cap' mod N = S w mod N)%nat.
Proof.
  intros N. remember N as n eqn:Hn. unfold N in Hn. clear N.
  intros HN Hle Hmod. unfold read_or_restart, cap_read, looped. rewrite <- Hn.
  destruct (Nat.eq_dec (cap_pos cap) n) as [Heq|Hne].
  - rewrite Heq in Hmod. rewrite Nat.Div0.mod_same in Hmod.
    assert (Hnone : nth_error (cap_frames cap) (cap_pos cap) = None)
      by (apply nth_error_None; lia).
    rewrite Hnone. unfold cap_set_pos_frames. cbn [cap_frames cap_pos].
    assert (Hfirst : nth_error (cap_frames cap) 0 = Some (nth 0 (cap_frames cap) d))
      by (apply nth_error_nth'; lia).
    rewrite Hfirst, <- Hmod.
    eexists; split; [reflexivity|]. cbn [cap_frames cap_pos].
    repeat split; [lia|].
    replace (S w) with (w + 1)%nat by lia.
    rewrite (Nat.Div0.add_mod w), <- Hmod. cbn [Nat.add].
    rewrite Nat.Div0.mod_mod. reflexivity.
  - assert (Hlt : (cap_pos cap < n)%nat) by lia.
    rewrite Nat.mod_small in Hmod by exact Hlt.
    assert (E : nth_error (cap_frames cap) (cap_pos cap)
                = Some (nth (cap_pos cap) (cap_frames cap) d))
      by (apply nth_error_nth'; lia).
    rewrite E, <- Hmod.
    eexists; split; [reflexivity|]. cbn [cap_frames cap_pos].
    repeat split; [lia|].
    replace (S (cap_pos cap)) with (cap_pos cap + 1)%nat by lia.
    replace (S w) with (w + 1)%nat by lia.
    rewrite (Nat.Div0.add_mod w), <- Hmod.
    rewrite <- (Nat.mod_small (cap_pos cap) n) at 2 by exact Hlt.
    rewrite <- Nat.Div0.add_mod. reflexivity.
Qed.

(** With a source that has frames, the loop runs until the target count
    and delivers the source frames cyclically. *)
Lemma loop_with_nonempty body d fuel target cap w out :
  (0 < List.length (cap_frames cap))%nat ->
  (cap_pos cap <= List.length (cap_frames cap))%nat ->
  (cap_pos cap mod List.length (cap_frames cap)
   = w mod List.length (cap_frames cap))%nat ->
  (Z.to_nat target - w < fuel)%nat ->
  loop_with body fuel target cap w out =
  Returned ((w + (Z.to_nat target - w))%nat,
            out ++ map (fun i => body i (looped (cap_frames cap) d i))
                       (seq w (Z.to_nat target - w))).
Proof.
  revert cap w out.
  induction fuel as [|fuel IH]; intros cap w out HN Hle Hmod Hfuel; [lia|].
  cbn [loop_with].
  destruct (Z.ltb_spec (Z.of_nat w) target) as [Hlt|Hge].
  - destruct (read_or_restart_in_step cap d w HN Hle Hmod)
      as (cap' & Hread & Hframes & Hle' & Hmod').
    rewrite Hread.
    assert (Hk : (Z.to_nat target - w = S (Z.to_nat target - S w))%nat) by lia.
    rewrite <- Hframes in HN, Hle', Hmod'.
    rewrite (IH cap' (S w) _ HN Hle' Hmod') by lia.
    rewrite Hframes, Hk. cbn [seq map].
    rewrite <- app_assoc. cbn [app].
    f_equal. f_equal. lia.
  - replace (Z.to_nat target - w)%nat with 0%nat by lia.
    cbn [seq map]. rewrite app_nil_r, Nat.add_0_r. reflexivity.
Qed.

(** With a source that has no frame, the loop stops at once. *)
Lemma loop_with_empty body fuel target cap w out :
  cap_frames cap = [] ->
  loop_with body (S fuel) target cap w out = Returned (w, out).
Proof.
  intros E. cbn [loop_with].
  destruct (Z.of_nat w <? target); [|reflexivity].
  pose proof (read_or_restart_empty cap E) as Hr.
  destruct (read_or_restart cap) as [[f|] cap']; [discriminate|reflexivity].
Qed.

(** The element-wise view of the frames a full run writes. *)
Lemma nth_error_looped_map (body : nat -> Frame -> Frame) frames d n i :
  (i < n)%nat ->
  nth_error (map (fun i => body i (looped frames d i)) (seq 0 n)) i
  = Some (body i (looped frames d i)).
Proof.
  intros Hi.
  rewrite nth_error_map, nth_error_seq.
  destruct (Nat.ltb_spec i n); [reflexivity|lia].
Qed.

Lemma looped_nth_error frames d i :
  frames <> [] ->
  nth_error frames (i mod List.length frames) = Some (looped frames d i).
Proof.
  intros Hne. unfold looped. apply nth_error_nth'.
  apply Nat.mod_upper_bound. destruct frames; [congruence|discriminate].
Qed.

End LoopFacts.

Section Synchronisation.
Context `{TextOverlay.TextRendering}.
Import TextOverlay Narasi.

(** The loop of the static-template path, run from a freshly opened
    source that has frames. *)
Lemma static_run_nonempty video template mask ts target d :
  file_frames video <> [] ->
  static_loop (loop_fuel target) template mask ts target (video_capture video)
    0%nat [] =
  Returned (Z.to_nat target,
            map (fun i => static_body template mask ts (looped (file_frames video) d i))
                (seq 0 (Z.to_nat target))).
Proof.
  intros Hne. rewrite static_loop_is_loop_with.
  rewrite (loop_with_nonempty _ d); cbn [video_capture cap_frames cap_pos].
  - rewrite Nat.sub_0_r. reflexivity.
  - destruct (file_frames video); [congruence|simpl; lia].
  - lia.
  - reflexivity.
  - unfold loop_fuel. lia.
Qed.

Lemma gif_run_nonempty video gifs g0 ts target d :
  file_frames video <> [] ->
  gif_loop (loop_fuel target) gifs g0 ts target (video_capture video) 0%nat [] =
  Returned (Z.to_nat target,
            map (fun i => gif_body gifs g0 ts i (looped (file_frames video) d i))
                (seq 0 (Z.to_nat target))).
Proof.
  intros Hne. rewrite gif_loop_is_loop_with.
  rewrite (loop_with_nonempty _ d); cbn [video_capture cap_frames cap_pos].
  - rewrite Nat.sub_0_r. reflexivity.
  - destruct (file_frames video); [congruence|simpl; lia].
  - lia.
  - reflexivity.
  - unfold loop_fuel. lia.
Qed.

Lemma target_frames_of_nonzero video T :
  Py.int (file_fps video) <> 0 ->
  target_frames_of (video_capture video) T =
  Returned (Py.int (T * inject_Z (Py.int (file_fps video)))%Q).
Proof.
  intros Hfps. unfold target_frames_of. cbn [video_capture cap_fps].
  destruct (Z.eqb_spec (Py.int (file_fps video)) 0); [contradiction|reflexivity].
Qed.


End Synchronisation.

Section SynchronisationExamples.
#[local] Existing Instances Example.imaging Example.pil Example.text_rendering.



End SynchronisationExamples.

Section EmptySource.
Context `{TextOverlay.TextRendering}.
Import TextOverlay Narasi.

(** C2 (as amended). When the source yields no frame on the first read,
    the loop seeks back to frame 0, reads once more and leaves the loop:
    provided the template had loaded and the rate is not 0, the step
    raises nothing and returns [True] with zero frames written. *)
Theorem empty_source_returns_true_without_frames
    (video : VideoFile) (tpl : TemplateFile) (t : Frame) (mask : Mask)
    (ts : option TextSettings) (T : Q) :
  file_frames video = [] ->
  template_for_mask_of tpl = Returned t ->
  Py.int (file_fps video) <> 0 ->
  process_concatenated_video_with_template video tpl mask ts T = Returned (true, []).
Proof.
  intros Hempty Htpl Hfps.
  unfold process_concatenated_video_with_template,
    process_concatenated_video_with_gif_template.
  unfold template_for_mask_of in Htpl.
  destruct (PyStr.is_gif_path (template_path tpl)).
  - destruct (extract_gif_frames tpl) as [|g0 gs] eqn:Eg; [discriminate|].
    rewrite (target_frames_of_nonzero video T Hfps). cbn [bind].
    rewrite gif_loop_is_loop_with. unfold loop_fuel.
    rewrite loop_with_empty by exact Hempty. reflexivity.
  - destruct (imread tpl) as [template|]; [|discriminate].
    rewrite (target_frames_of_nonzero video T Hfps). cbn [bind].
    rewrite static_loop_is_loop_with. unfold loop_fuel.
    rewrite loop_with_empty by exact Hempty. reflexivity.
Qed.

End EmptySource.

Section EmptySourceExamples.
#[local] Existing Instances Example.imaging Example.pil Example.text_rendering.

(** Witness for C2: a file with 30 fps metadata and no decodable frame. *)
Lemma empty_source_returns_true_without_frames_witness :
  Narasi.process_concatenated_video_with_template Example.no_frames
    Example.static_template [255%N] None (1 # 8) = Returned (true, []).
Proof.
  apply (empty_source_returns_true_without_frames Example.no_frames
           Example.static_template 7%nat [255%N] None (1 # 8)).
  - reflexivity.
  - reflexivity.
  - discriminate.
Defined.

(** Counterexample to C2 as stated: on an empty source the step does not
    fail; it returns [True]. *)
Lemma empty_source_does_not_raise :
  Narasi.file_frames Example.no_frames = [] /\
  ~ raises (Narasi.process_concatenated_video_with_template Example.no_frames
              Example.static_template [255%N] None (1 # 8)).
Proof.
  split; [reflexivity|].
  intros [e He]. vm_compute in He. discriminate He.
Qed.

End EmptySourceExamples.

Section GifTemplate.
Context `{TextOverlay.TextRendering}.
Import TextOverlay Narasi.

(** C6. With an animated template of [K] frames, output frame [i] is
    composed from template frame [i mod K], scaled, together with the
    mask built from that very frame; the template index is driven by the
    output frame counter alone, while the source frame is [i mod N]. *)
Theorem gif_template_frame_cycles
    (video : VideoFile) (tpl : TemplateFile) (ts : option TextSettings) (T : Q) :
  extract_gif_frames tpl <> [] ->
  Py.int (file_fps video) <> 0 ->
  exists out,
    process_concatenated_video_with_gif_template video tpl ts T
      = Returned (true, out) /\
    (file_frames video <> [] ->
     List.length out = Z.to_nat (Py.int (T * inject_Z (Py.int (file_fps video)))%Q)) /\
    forall i, (i < List.length out)%nat ->
      exists gif_frame frame,
        nth_error (extract_gif_frames tpl)
          (i mod List.length (extract_gif_frames tpl)) = Some gif_frame /\
        nth_error (file_frames video) (i mod List.length (file_frames video))
          = Some frame /\
        nth_error out i = Some (gif_composite ts gif_frame frame).
Proof.
  intros Hgifs Hfps.
  unfold process_concatenated_video_with_gif_template.
  destruct (extract_gif_frames tpl) as [|g0 gs] eqn:Eg; [congruence|].
  rewrite (target_frames_of_nonzero video T Hfps). cbn [bind].
  destruct (file_frames video) as [|f0 fs] eqn:E.
  - rewrite gif_loop_is_loop_with. unfold loop_fuel.
    rewrite loop_with_empty by exact E.
    cbn [bind snd]. eexists. split; [reflexivity|].
    split; [congruence|]. intros i Hi. simpl in Hi. lia.
  - rewrite (gif_run_nonempty video _ g0 ts _ f0) by (rewrite E; discriminate).
    cbn [bind snd]. eexists. split; [reflexivity|].
    split; [intros _; rewrite length_map, length_seq; reflexivity|].
    intros i Hi. rewrite length_map, length_seq in Hi.
    exists (nth (i mod List.length (g0 :: gs)) (g0 :: gs) g0), (looped (f0 :: fs) f0 i).
    split; [|split].
    + apply nth_error_nth'. apply Nat.mod_upper_bound. discriminate.
    + apply looped_nth_error. discriminate.
    + rewrite E.
      apply (nth_error_looped_map (gif_body (g0 :: gs) g0 ts) (f0 :: fs) f0 _ i Hi).
Qed.

End GifTemplate.

Section GifTemplateExamples.
#[local] Existing Instances Example.imaging Example.pil Example.text_rendering.

(** Witness for C6: a three-frame template over a two-frame source. *)
Lemma gif_template_frame_cycles_witness :
  exists out,
    Narasi.process_concatenated_video_with_gif_template Example.two_frames
      Example.gif_template None (1 # 4) = Returned (true, out) /\
    (Narasi.file_frames Example.two_frames <> [] -> List.length out = 7%nat) /\
    forall i, (i < List.length out)%nat ->
      exists gif_frame frame,
        nth_error [4; 5; 6]%nat (i mod 3) = Some gif_frame /\
        nth_error [1; 2]%nat (i mod 2) = Some frame /\
        nth_error out i = Some (gif_composite None gif_frame frame).
Proof.
  apply (gif_template_frame_cycles Example.two_frames Example.gif_template
           None (1 # 4)).
  - discriminate.
  - discriminate.
Defined.

(** The same run, evaluated: template frames 4, 5, 6 cycle while source
    frames 1, 2 cycle on their own. *)
Example gif_template_run :
  Narasi.process_concatenated_video_with_gif_template Example.two_frames
    Example.gif_template None (1 # 4)
  = Returned (true, [401; 502; 601; 402; 501; 602; 401]%nat).
Proof. vm_compute. reflexivity. Qed.

End GifTemplateExamples.

(** ** The up-front mask check *)

Lemma np_sum_zero_of_true_count (m : Mask) :
  true_count m = 0%nat -> np_sum m = 0%N.
Proof.
  unfold true_count, np_sum.
  induction m as [|p m IH]; intros Hc; [reflexivity|].
  cbn [filter fold_right] in *.
  destruct (N.eqb_spec p 0) as [Hp|Hp]; cbn [negb] in Hc.
  - rewrite Hp, IH by exact Hc. reflexivity.
  - discriminate Hc.
Qed.


Section MaskCheck.
Context `{TextOverlay.TextRendering}.
Import TextOverlay.

(** C3. When the mask built from the template has no key-coloured pixel,
    the batch stops on the "no green screen" error before any frame is
    composited: the greenscreen batch returns with that message and no job
    is started; narasi mode raises it before the compositing step and
    ends with [False] and no frame written. The test sits before the job
    loop, so it runs once per batch. *)
Theorem empty_mask_stops_before_any_frame :
  (forall (g : Processor.Gui) (t : Frame),
     Processor.files_to_process g <> [] ->
     Processor.processing_mode g = "greenscreen"%string ->
     Processor.truthy (Processor.background_image_path g) = true ->
     Processor.get_template_for_processing (Processor.template_file g) = Returned t ->
     true_count (create_green_screen_mask (resize t (FRAME_WIDTH, FRAME_HEIGHT))) = 0%nat ->
     Processor.process_videos_bulk g =
     Returned {| Processor.events := [];
                 Processor.status :=
                   "Tidak ada green screen terdeteksi di template!" |}) /\
  (forall (w : Narasi.NarasiWorld) (ts : option TextSettings)
          (audio : Moviepy.AudioClip) (video : Narasi.VideoFile) (t : Frame),
     Narasi.open_audio_clip (Narasi.audio_io w) = Ok audio ->
     Narasi.concatenated w = Ok video ->
     Narasi.template_for_mask_of (Narasi.template_file w) = Returned t ->
     true_count (create_green_screen_mask (resize t (FRAME_WIDTH, FRAME_HEIGHT))) = 0%nat ->
     Narasi.narasi_steps w ts (Moviepy.duration audio)
       = Raised "No green screen detected in template" /\
     Narasi.process_narasi_mode w ts =
     Returned {| Narasi.success := false; Narasi.composited := [];
                 Narasi.output := Moviepy.NoOutput |}).
Proof.
  split.
  - intros g t Hfiles Hmode Hpath Htpl Hcount.
    apply np_sum_zero_of_true_count in Hcount.
    unfold Processor.process_videos_bulk, Processor.process_thread_try,
      Processor.mode_setup, Processor.is_greenscreen.
    destruct (Processor.files_to_process g) as [|j js]; [congruence|].
    rewrite Hmode, Hpath, Htpl.
    change (String.eqb "greenscreen" "narasi") with false.
    change (String.eqb "greenscreen" "greenscreen") with true.
    cbn [negb andb bind]. rewrite Hcount. reflexivity.
  - intros w ts audio video t Haudio Hvideo Htpl Hcount.
    apply np_sum_zero_of_true_count in Hcount.
    assert (Hsteps : Narasi.narasi_steps w ts (Moviepy.duration audio)
                     = Raised "No green screen detected in template").
    { unfold Narasi.narasi_steps. rewrite Hvideo, Htpl. cbn [bind lift_io].
      rewrite Hcount. reflexivity. }
    split; [exact Hsteps|].
    unfold Narasi.process_narasi_mode. rewrite Haudio. cbn [bind lift_io].
    rewrite Hsteps. reflexivity.
Qed.

End MaskCheck.

Section MaskCheckExamples.
#[local] Existing Instances Example.imaging Example.pil Example.text_rendering.

(** Witness for C3: template frame 7 has no key-coloured pixel. *)
Lemma empty_mask_stops_before_any_frame_witness :
  Processor.process_videos_bulk
    (Example.gui "greenscreen" Example.static_template Example.io_ok) =
  Returned {| Processor.events := [];
              Processor.status := "Tidak ada green screen terdeteksi di template!" |}
  /\
  (Narasi.narasi_steps (Example.narasi_world Example.static_template Example.io_ok)
     None (Moviepy.duration Example.narration)
     = Raised "No green screen detected in template" /\
   Narasi.process_narasi_mode
     (Example.narasi_world Example.static_template Example.io_ok) None =
   Returned {| Narasi.success := false; Narasi.composited := [];
               Narasi.output := Moviepy.NoOutput |}).
Proof.
  split.
  - apply (proj1 (@empty_mask_stops_before_any_frame
                    Example.imaging Example.pil Example.text_rendering)
             (Example.gui "greenscreen" Example.static_template Example.io_ok)
             7%nat).
    + discriminate.
    + reflexivity.
    + reflexivity.
    + reflexivity.
    + reflexivity.
  - apply (proj2 (@empty_mask_stops_before_any_frame
                    Example.imaging Example.pil Example.text_rendering)
             (Example.narasi_world Example.static_template Example.io_ok)
             None Example.narration Example.two_frames 7%nat).
    + reflexivity.
    + reflexivity.
    + reflexivity.
    + reflexivity.
Defined.

End MaskCheckExamples.

(** ** Audio fallback *)

Section AudioFallback.
Import Processor.

Lemma get_random_audio_file_no_fuel ops folder :
  get_random_audio_file ops folder <> OutOfFuel.
Proof.
  unfold get_random_audio_file. split_calls; discriminate.
Qed.

Lemma handle_audio_try_no_fuel ops s : handle_audio_try ops s <> OutOfFuel.
Proof.
  unfold handle_audio_try, use_original_audio.
  pose proof (get_random_audio_file_no_fuel ops (folder_path s)) as Hr.
  destruct (get_random_audio_file ops (folder_path s)) as [[bg|]| |];
    try congruence; split_calls; discriminate.
Qed.

(** [handle_audio_processing] returns normally whatever the audio calls do. *)
Lemma handle_audio_processing_returns ops s :
  exists r, handle_audio_processing ops s = Returned r.
Proof.
  unfold handle_audio_processing, try_except.
  pose proof (handle_audio_try_no_fuel ops s) as Hf.
  destruct (handle_audio_try ops s) as [r|e|]; [eexists; reflexivity| |congruence].
  unfold handle_audio_except. split_calls; eexists; reflexivity.
Qed.


End AudioFallback.

Section JobFacts.
Context `{TextOverlay.TextRendering}.
Import TextOverlay Processor.

Lemma get_template_for_processing_no_fuel tpl :
  get_template_for_processing tpl <> OutOfFuel.
Proof. unfold get_template_for_processing. split_calls; discriminate. Qed.



Lemma process_single_video_blur_no_fuel j blur ts s :
  process_single_video_blur j blur ts s <> OutOfFuel.
Proof.
  unfold process_single_video_blur.
  destruct (handle_audio_processing_returns (job_ops j) s) as [a Ha].
  rewrite Ha. split_calls; discriminate.
Qed.

Lemma process_single_video_greenscreen_no_fuel j tpl mask ts s :
  process_single_video_greenscreen j tpl mask ts s <> OutOfFuel.
Proof.
  unfold process_single_video_greenscreen.
  destruct (handle_audio_processing_returns (job_ops j) s) as [a Ha].
  rewrite Ha.
  pose proof (get_template_for_processing_no_fuel tpl) as Ht.
  destruct (get_template_for_processing tpl) as [t|e|]; [| |congruence];
    split_calls; discriminate.
Qed.

Lemma move_temp_if_exists_no_fuel ops temp :
  move_temp_if_exists ops temp <> OutOfFuel.
Proof. unfold move_temp_if_exists. split_calls; discriminate. Qed.

Lemma handle_gif_audio_processing_no_fuel ops io temp s :
  handle_gif_audio_processing ops io temp s <> OutOfFuel.
Proof.
  unfold handle_gif_audio_processing, handle_gif_audio_try.
  pose proof (get_random_audio_file_no_fuel ops (folder_path s)) as Hr.
  pose proof (move_temp_if_exists_no_fuel ops temp) as Hm.
  destruct (get_random_audio_file ops (folder_path s)) as [[bg|]|e1|];
    try congruence;
    destruct (move_temp_if_exists ops temp) as [o|e2|]; try congruence;
    split_calls; discriminate.
Qed.

Lemma process_gif_to_mp4_blur_no_fuel j blur ts s :
  process_gif_to_mp4_blur j blur ts s <> OutOfFuel.
Proof.
  unfold process_gif_to_mp4_blur.
  destruct (job_gif_frames j) as [[|f fs]|e]; cbn [bind lift_io try_except];
    try discriminate.
  pose proof (handle_gif_audio_processing_no_fuel (job_ops j) (job_io j)) as Hg.
  match goal with
  | |- context [handle_gif_audio_processing ?o ?i ?t ?a] =>
      specialize (Hg t a); destruct (handle_gif_audio_processing o i t a)
  end; cbn [bind try_except]; congruence.
Qed.

Lemma process_gif_to_mp4_greenscreen_no_fuel j tpl mask ts s :
  process_gif_to_mp4_greenscreen j tpl mask ts s <> OutOfFuel.
Proof.
  unfold process_gif_to_mp4_greenscreen.
  destruct (job_gif_frames j) as [[|f fs]|e]; cbn [bind lift_io try_except];
    try discriminate.
  pose proof (get_template_for_processing_no_fuel tpl) as Ht.
  destruct (get_template_for_processing tpl) as [t|e'|]; [| |congruence];
    cbn [bind try_except]; try discriminate.
  pose proof (handle_gif_audio_processing_no_fuel (job_ops j) (job_io j)) as Hg.
  match goal with
  | |- context [handle_gif_audio_processing ?o ?i ?t ?a] =>
      specialize (Hg t a); destruct (handle_gif_audio_processing o i t a)
  end; cbn [bind try_except]; congruence.
Qed.

(** Processing one file returns or raises; it never runs out of fuel. *)
Lemma run_job_no_fuel g mask ts j : run_job g mask ts j <> OutOfFuel.
Proof.
  unfold run_job.
  pose proof (process_gif_to_mp4_greenscreen_no_fuel j (template_file g) mask ts
                (audio_settings g)).
  pose proof (process_gif_to_mp4_blur_no_fuel j (blur_settings g) (Some ts)
                (audio_settings g)).
  pose proof (process_single_video_greenscreen_no_fuel j (template_file g) mask ts
                (audio_settings g)).
  pose proof (process_single_video_blur_no_fuel j (blur_settings g) (Some ts)
                (audio_settings g)).
  destruct (job_is_gif j), (is_greenscreen (processing_mode g));
    match goal with
    | |- bind ?m _ <> _ => destruct m
    end; cbn [bind]; congruence.
Qed.

End JobFacts.

Section NarasiAudio.
Context `{TextOverlay.TextRendering}.
Import TextOverlay Narasi.




End NarasiAudio.

Section AudioFailure.
Context `{TextOverlay.TextRendering}.
Import TextOverlay.


End AudioFailure.

Section AudioFailureExamples.
#[local] Existing Instances Example.imaging Example.pil Example.text_rendering.




End AudioFailureExamples.

(** ** Audio alignment *)

Section AudioAlignment.
Import Moviepy.

(** [t % d] is the remainder of [t] after whole copies of length [d]. *)
Lemma fmod_spec (t d : Q) :
  (0 < d)%Q ->
  (t == d * inject_Z (Qfloor (t / d)) + fmod t d)%Q /\
  (0 <= fmod t d)%Q /\ (fmod t d < d)%Q.
Proof.
  intros Hd. unfold fmod.
  pose proof (Qfloor_le (t / d)) as Hlo.
  pose proof (Qlt_floor (t / d)) as Hhi.
  assert (Hx : (t == (t / d) * d)%Q) by (field; lra).
  set (x := (t / d)%Q) in *.
  rewrite inject_Z_plus in Hhi. change (inject_Z 1) with 1%Q in Hhi.
  set (f := inject_Z (Qfloor x)) in *.
  split; [ring|]. split.
  - assert (H0 : (0 <= d * (x - f))%Q)
      by (apply Qmult_le_0_compat; lra).
    lra.
  - assert (H1 : (d * (x - f) < d * 1)%Q)
      by (apply Qmult_lt_l; lra).
    lra.
Qed.





End AudioAlignment.

(** ** Blur preview geometry *)

Section BlurPreview.
Import Gui.

Lemma Returned_inj {A} (a b : A) : Returned a = Returned b -> a = b.
Proof. intros E. injection E as E. exact E. Qed.

(** [max(0, min(offset, W - n))] keeps an inset of size [n <= W] inside
    [0 .. W]. *)
Lemma clamp_inside (W n offset : Z) :
  0 <= n <= W ->
  0 <= Z.max 0 (Z.min offset (W - n)) /\ Z.max 0 (Z.min offset (W - n)) + n <= W.
Proof. lia. Qed.

(** Whenever the scaled inset is no larger than the preview canvas, the
    clamped offsets keep it inside. *)
Lemma inset_contained_when_it_fits h w c r :
  inset_geometry h w c = Returned r ->
  0 <= new_width r <= preview_width ->
  0 <= new_height r <= preview_height ->
  contained r.
Proof.
  unfold inset_geometry, contained.
  destruct (_ =? 0); [discriminate|].
  destruct (Qlt_le_dec _ _); [|destruct (Qeq_bool _ 0); [discriminate|]];
    cbv beta iota zeta delta [bind]; intros E; apply Returned_inj in E;
    subst r; cbv beta iota zeta delta [x_offset y_offset new_width new_height];
    intros Hw Hh;
    match goal with
    | |- context [Z.max 0 (Z.min ?xo (preview_width - ?n))] =>
        pose proof (clamp_inside preview_width n xo Hw) as [? ?]
    end;
    match goal with
    | |- context [Z.max 0 (Z.min ?yo (preview_height - ?n))] =>
        pose proof (clamp_inside preview_height n yo Hh) as [? ?]
    end;
    repeat split; assumption.
Qed.

(** C7 (the code at the failing input). A 200x100 landscape frame with
    both position sliders at 50 and no crop: the inset is scaled to
    342x171, wider than the 160-pixel preview; its offset is clamped to 0,
    it reaches beyond the right edge, and the paste raises. *)
Theorem blur_preview_inset_overflows_wide_frame :
  inset_geometry 100 200 Example.centred
    = Returned {| x_offset := 0; y_offset := 57; new_width := 342; new_height := 171 |} /\
  ~ contained {| x_offset := 0; y_offset := 57; new_width := 342; new_height := 171 |} /\
  blur_preview_inset 100 200 Example.centred = Raised "could not broadcast input array".
Proof.
  split; [vm_compute; reflexivity|].
  split; [|vm_compute; reflexivity].
  unfold contained, preview_width. cbn [x_offset new_width]. lia.
Qed.

End BlurPreview.

(** ** Audio mode flags *)

Section AudioModes.
Import Gui.

Lemma handle_establishes_exclusive p e : exclusive (handle p e).
Proof.
  unfold exclusive.
  destruct e, p as [a d b v o fg]; destruct a, d; reflexivity.
Qed.

Lemma run_preserves_exclusive es : forall p, exclusive p -> exclusive (run p es).
Proof.
  unfold run.
  induction es as [|e es IH]; intros p Hp; cbn [fold_left]; [exact Hp|].
  apply IH. apply handle_establishes_exclusive.
Qed.

(** C9. From the initial panel, after any sequence of audio-mode events
    at most one of "background music only" and "dual audio" is on; every
    single event establishes this. Selecting background-only switches
    dual audio off, and switching dual audio on switches background-only
    off. *)
Theorem audio_modes_mutually_exclusive :
  (forall es, exclusive (run initial_panel es)) /\
  (forall p e, exclusive (handle p e)) /\
  (forall p,
     audio_enabled (handle p SelectBackgroundOnly) = true /\
     dual_audio_enabled (handle p SelectBackgroundOnly) = false) /\
  (forall p,
     dual_audio_enabled (handle p ToggleDualAudio) = negb (dual_audio_enabled p) /\
     audio_enabled (handle p ToggleDualAudio)
       = andb (audio_enabled p) (dual_audio_enabled p)).
Proof.
  split; [|split; [|split]].
  - intros es. apply run_preserves_exclusive. reflexivity.
  - exact handle_establishes_exclusive.
  - intros p. split; reflexivity.
  - intros [a d b v o fg]. destruct a, d; split; reflexivity.
Qed.

End AudioModes.

(** ** Text overlay and the horizontal position *)

Section OverlayPosition.
Context `{TextOverlay.TextRendering}.
Import TextOverlay.

(** C10. Two text settings that agree on everything but [x_position]
    give the same overlaid frame: [x_percent] is computed and never used,
    the horizontal start of every line comes from the layout alone. *)
Theorem text_overlay_ignores_x_position
    (frame : Frame) (video_name : string) (s1 s2 : TextSettings) :
  enabled s1 = enabled s2 ->
  y_position s1 = y_position s2 ->
  size s1 = size s2 ->
  font s1 = font s2 ->
  color s1 = color s2 ->
  add_text_overlay frame video_name s1 = add_text_overlay frame video_name s2.
Proof.
  destruct s1 as [e1 x1 y1 z1 f1 c1], s2 as [e2 x2 y2 z2 f2 c2].
  cbn [enabled y_position size font color].
  intros -> -> -> -> ->.
  unfold add_text_overlay, add_text_overlay_body.
  cbn [enabled x_position y_position size font color].
  destruct (fromarray frame) as [pil_image|]; [|reflexivity].
  destruct (smart_text_wrap _ _ _ _ _) as [lines|]; [|reflexivity].
  destruct (render_text_with_emoji_multiline _ _ _ _ _ _ _ _) as [rendered|];
    [|reflexivity].
  assert (Hdraw : forall fnt col lds img,
             draw_lines {| enabled := e2; x_position := x1; y_position := y2;
                           size := z2; font := f2; color := c2 |} fnt col lds img
             = draw_lines {| enabled := e2; x_position := x2; y_position := y2;
                             size := z2; font := f2; color := c2 |} fnt col lds img).
  { intros fnt col lds. induction lds as [|ld lds IH]; intros img; [reflexivity|].
    cbn [draw_lines].
    assert (Hitems : forall its img',
               draw_items {| enabled := e2; x_position := x1; y_position := y2;
                             size := z2; font := f2; color := c2 |} fnt col ld its img'
               = draw_items {| enabled := e2; x_position := x2; y_position := y2;
                               size := z2; font := f2; color := c2 |} fnt col ld its img').
    { induction its as [|it its IHi]; intros img'; [reflexivity|].
      cbn [draw_items].
      replace (draw_item {| enabled := e2; x_position := x1; y_position := y2;
                            size := z2; font := f2; color := c2 |} fnt col ld img' it)
        with (draw_item {| enabled := e2; x_position := x2; y_position := y2;
                           size := z2; font := f2; color := c2 |} fnt col ld img' it)
        by (destruct it; reflexivity).
      destruct (draw_item _ fnt col ld img' it); [apply IHi|reflexivity]. }
    rewrite Hitems. destruct (draw_items _ fnt col ld (items ld) img); [apply IH|reflexivity]. }
  rewrite Hdraw. reflexivity.
Qed.

End OverlayPosition.

Section OverlayPositionExamples.
#[local] Existing Instances Example.imaging Example.pil Example.text_rendering.

(** Witness for C10: the slider at 0 and at 100. *)
Lemma text_overlay_ignores_x_position_witness :
  @TextOverlay.add_text_overlay _ _ Example.text_rendering
    5%nat "my_clip" (Example.settings 0)
  = @TextOverlay.add_text_overlay _ _ Example.text_rendering
      5%nat "my_clip" (Example.settings 100).
Proof.
  apply (@text_overlay_ignores_x_position _ _ Example.text_rendering
           5%nat "my_clip" (Example.settings 0) (Example.settings 100));
    reflexivity.
Defined.

(** The overlay does draw in this instance: the frame changes. *)
Example text_overlay_draws :
  @TextOverlay.add_text_overlay _ _ Example.text_rendering
    5%nat "my_clip" (Example.settings 0) = 232%nat.
Proof. vm_compute. reflexivity. Qed.

End OverlayPositionExamples.

(** ** The batch loop *)

Section Batch.
Context `{TextOverlay.TextRendering}.
Import TextOverlay Processor.

Lemma job_loop_spec g mask ts total jobs :
  forall i successful evs,
    job_loop g mask ts total jobs i successful evs =
    Returned ((successful + successes g mask ts jobs)%nat,
              evs ++ batch_events g mask ts total jobs i).
Proof.
  induction jobs as [|j rest IH]; intros i successful evs.
  - cbn [job_loop batch_events]. unfold successes. cbn [filter List.length].
    rewrite Nat.add_0_r, app_nil_r. reflexivity.
  - cbn [job_loop batch_events]. unfold successes, job_report. cbn [filter].
    unfold job_counted at 1.
    pose proof (run_job_no_fuel g mask ts j) as Hfuel.
    destruct (run_job g mask ts j) as [[|]|e|]; [| | |congruence];
      rewrite IH; unfold successes; cbn [List.length];
      rewrite <- !app_assoc; cbn [app]; f_equal; f_equal; lia.
Qed.


End Batch.

Section BatchExamples.
#[local] Existing Instances Example.imaging Example.pil Example.text_rendering.


End BatchExamples.

(** * Further properties of the modelled code *)

(** ** [int()] on rationals *)

Lemma int_of_nonneg (x : Q) : (0 <= x)%Q -> Py.int x = Qfloor x.
Proof.
  destruct x as [n d]. unfold Qle, Py.int, Qfloor. cbn [Qnum Qden]. intros Hn.
  apply Z.quot_div_nonneg; lia.
Qed.

Lemma int_of_nonpos (x : Q) : (x <= 0)%Q -> Py.int x = Qceiling x.
Proof.
  destruct x as [n d]. unfold Qle, Py.int, Qceiling, Qfloor, Qopp.
  cbn [Qnum Qden]. intros Hn.
  rewrite <- (Z.opp_involutive n) at 1.
  rewrite Z.quot_opp_l by lia.
  rewrite Z.quot_div_nonneg by lia. reflexivity.
Qed.

Lemma int_monotone (x y : Q) : (x <= y)%Q -> Py.int x <= Py.int y.
Proof.
  intros Hxy.
  destruct (Qlt_le_dec x 0) as [Hx|Hx], (Qlt_le_dec y 0) as [Hy|Hy].
  - rewrite !int_of_nonpos by lra. apply Qceiling_resp_le. exact Hxy.
  - rewrite (int_of_nonpos x), (int_of_nonneg y) by lra.
    assert (Qceiling x <= 0).
    { change 0 with (Qceiling 0). apply Qceiling_resp_le. lra. }
    assert (0 <= Qfloor y).
    { change 0 with (Qfloor 0). apply Qfloor_resp_le. exact Hy. }
    lia.
  - lra.
  - rewrite !int_of_nonneg by lra. apply Qfloor_resp_le. exact Hxy.
Qed.

Lemma int_nonpos (x : Q) : (x <= 0)%Q -> Py.int x <= 0.
Proof. intros Hx. change 0 with (Py.int 0). apply int_monotone. exact Hx. Qed.

Lemma int_nonneg (x : Q) : (0 <= x)%Q -> 0 <= Py.int x.
Proof. intros Hx. change 0 with (Py.int 0). apply int_monotone. exact Hx. Qed.

(** For a non-negative [x], [int(x) <= x < int(x) + 1]. *)
Lemma int_bounds (x : Q) :
  (0 <= x)%Q -> (inject_Z (Py.int x) <= x)%Q /\ (x < inject_Z (Py.int x + 1))%Q.
Proof.
  intros Hx. rewrite int_of_nonneg by exact Hx.
  split; [apply Qfloor_le|apply Qlt_floor].
Qed.

(** ** The compositing step as index arithmetic *)

Section NarasiByIndex.
Context `{TextOverlay.TextRendering}.
Import TextOverlay Narasi.

(** Once the template has loaded and the rate is not 0, the loop writes
    exactly the frames that index arithmetic gives. *)
Lemma process_concatenated_by_index video tpl t mask ts T :
  template_for_mask_of tpl = Returned t ->
  Py.int (file_fps video) <> 0 ->
  process_concatenated_video_with_template video tpl mask ts T
  = Returned (true, frames_by_index video tpl mask ts (target_count video T)).
Proof.
  intros Htpl Hfps.
  unfold process_concatenated_video_with_template,
    process_concatenated_video_with_gif_template, frames_by_index, narasi_body,
    target_count.
  unfold template_for_mask_of in Htpl.
  destruct (PyStr.is_gif_path (template_path tpl)).
  - destruct (extract_gif_frames tpl) as [|g0 gs] eqn:Eg; [discriminate|].
    rewrite (target_frames_of_nonzero video T Hfps). cbn [bind].
    destruct (file_frames video) as [|f0 fs] eqn:E.
    + rewrite gif_loop_is_loop_with. unfold loop_fuel.
      rewrite loop_with_empty by exact E. reflexivity.
    + rewrite (gif_run_nonempty video _ g0 ts _ f0) by (rewrite E; discriminate).
      rewrite E. reflexivity.
  - destruct (imread tpl) as [template|]; [|discriminate].
    rewrite (target_frames_of_nonzero video T Hfps). cbn [bind].
    destruct (file_frames video) as [|f0 fs] eqn:E.
    + rewrite static_loop_is_loop_with. unfold loop_fuel.
      rewrite loop_with_empty by exact E. reflexivity.
    + rewrite (static_run_nonempty video _ mask ts _ f0) by (rewrite E; discriminate).
      rewrite E. reflexivity.
Qed.

Lemma frames_by_index_length video tpl mask ts n :
  file_frames video <> [] ->
  List.length (frames_by_index video tpl mask ts n) = n.
Proof.
  intros Hne. unfold frames_by_index.
  destruct (file_frames video); [congruence|].
  rewrite length_map, length_seq. reflexivity.
Qed.

Lemma firstn_seq_le (s n m : nat) :
  (n <= m)%nat -> firstn n (seq s m) = seq s n.
Proof.
  revert s m. induction n as [|n IH]; intros s m Hnm; [reflexivity|].
  destruct m as [|m]; [lia|]. cbn [seq firstn]. rewrite IH by lia. reflexivity.
Qed.

Lemma frames_by_index_prefix video tpl mask ts n m :
  (n <= m)%nat ->
  frames_by_index video tpl mask ts n
  = firstn n (frames_by_index video tpl mask ts m).
Proof.
  intros Hnm. unfold frames_by_index.
  destruct (file_frames video); [rewrite firstn_nil; reflexivity|].
  rewrite firstn_map, firstn_seq_le by exact Hnm. reflexivity.
Qed.

Lemma target_count_monotone video T1 T2 :
  0 < Py.int (file_fps video) -> (T1 <= T2)%Q ->
  (target_count video T1 <= target_count video T2)%nat.
Proof.
  intros Hfps HT. unfold target_count.
  assert (Py.int (T1 * inject_Z (Py.int (file_fps video)))%Q
          <= Py.int (T2 * inject_Z (Py.int (file_fps video)))%Q); [|lia].
  apply int_monotone.
  apply Qmult_le_compat_r; [exact HT|].
  change 0%Q with (inject_Z 0). rewrite <- Zle_Qle. lia.
Qed.

(** X1. A target duration of zero or less writes no frame at all, and
    the step still returns [True]. *)
Theorem nonpositive_target_writes_nothing video tpl t mask ts T :
  template_for_mask_of tpl = Returned t ->
  0 < Py.int (file_fps video) ->
  (T <= 0)%Q ->
  process_concatenated_video_with_template video tpl mask ts T = Returned (true, []).
Proof.
  intros Htpl Hfps HT.
  rewrite (process_concatenated_by_index video tpl t) by (assumption || lia).
  assert (Hn : target_count video T = 0%nat).
  { unfold target_count.
    assert (Py.int (T * inject_Z (Py.int (file_fps video)))%Q <= 0); [|lia].
    apply int_nonpos.
    assert (0 <= inject_Z (Py.int (file_fps video)))%Q
      by (change 0%Q with (inject_Z 0); rewrite <- Zle_Qle; lia).
    setoid_replace 0%Q with (0 * inject_Z (Py.int (file_fps video)))%Q by ring.
    apply Qmult_le_compat_r; assumption. }
  rewrite Hn. unfold frames_by_index.
  destruct (file_frames video); reflexivity.
Qed.

(** X2. Lengthening the target duration only appends frames: the output
    for a shorter target is a prefix of the output for a longer one. *)
Theorem longer_target_extends_output video tpl t mask ts T1 T2 :
  template_for_mask_of tpl = Returned t ->
  0 < Py.int (file_fps video) ->
  (T1 <= T2)%Q ->
  exists out1 out2,
    process_concatenated_video_with_template video tpl mask ts T1
      = Returned (true, out1) /\
    process_concatenated_video_with_template video tpl mask ts T2
      = Returned (true, out2) /\
    out1 = firstn (List.length out1) out2.
Proof.
  intros Htpl Hfps HT.
  rewrite !(process_concatenated_by_index video tpl t) by (assumption || lia).
  do 2 eexists. split; [reflexivity|]. split; [reflexivity|].
  pose proof (target_count_monotone video T1 T2 Hfps HT) as Hle.
  destruct (file_frames video) as [|f0 fs] eqn:E.
  - unfold frames_by_index. rewrite E. reflexivity.
  - rewrite frames_by_index_length by (rewrite E; discriminate).
    apply frames_by_index_prefix. exact Hle.
Qed.

(** X3. The output is periodic: with a static template it repeats after
    [N] frames (the source length), with an animated template of [K]
    frames after [K * N] frames. *)
Theorem output_repeats_with_period video tpl t mask ts T :
  template_for_mask_of tpl = Returned t ->
  Py.int (file_fps video) <> 0 ->
  exists out,
    process_concatenated_video_with_template video tpl mask ts T
      = Returned (true, out) /\
    forall i, (i + output_period video tpl < List.length out)%nat ->
      nth_error out (i + output_period video tpl) = nth_error out i.
Proof.
  intros Htpl Hfps.
  rewrite (process_concatenated_by_index video tpl t) by assumption.
  eexists. split; [reflexivity|].
  unfold frames_by_index.
  destruct (file_frames video) as [|f0 fs] eqn:E; [intros i Hi; simpl in Hi; lia|].
  intros i Hi. rewrite length_map, length_seq in Hi.
  rewrite !nth_error_map, !nth_error_seq.
  destruct (Nat.ltb_spec (i + output_period video tpl) (target_count video T)); [|lia].
  destruct (Nat.ltb_spec i (target_count video T)); [|lia].
  cbn [option_map Nat.add]. f_equal.
  unfold output_period, narasi_body, looped, gif_body in *. rewrite E in *.
  unfold template_for_mask_of in Htpl.
  destruct (PyStr.is_gif_path (template_path tpl)).
  - destruct (extract_gif_frames tpl) as [|g0 gs] eqn:Eg; [discriminate|].
    rewrite Nat.Div0.mod_add.
    rewrite (Nat.mul_comm (List.length (g0 :: gs))), Nat.Div0.mod_add.
    reflexivity.
  - destruct (imread tpl); [|discriminate].
    replace (i + List.length (f0 :: fs))%nat
      with (i + 1 * List.length (f0 :: fs))%nat by lia.
    rewrite Nat.Div0.mod_add. reflexivity.
Qed.

(** X4. A source whose frame rate truncates to 0 (as for a file that
    cannot be opened) makes the step raise a division by zero before any
    frame is read; narasi mode then ends with [False] and no output. *)
Theorem zero_rate_fails_before_loop :
  (forall video tpl t mask ts T,
     template_for_mask_of tpl = Returned t ->
     Py.int (file_fps video) = 0 ->
     process_concatenated_video_with_template video tpl mask ts T
       = Raised "division by zero") /\
  (forall w ts audio video t,
     open_audio_clip (audio_io w) = Ok audio ->
     concatenated w = Ok video ->
     template_for_mask_of (template_file w) = Returned t ->
     Py.int (file_fps video) = 0 ->
     process_narasi_mode w ts =
     Returned {| success := false; composited := []; output := Moviepy.NoOutput |}).
Proof.
  assert (Hstep : forall video tpl t mask ts T,
     template_for_mask_of tpl = Returned t ->
     Py.int (file_fps video) = 0 ->
     process_concatenated_video_with_template video tpl mask ts T
       = Raised "division by zero").
  { intros video tpl t mask ts T Htpl Hfps.
    unfold process_concatenated_video_with_template,
      process_concatenated_video_with_gif_template, target_frames_of.
    unfold template_for_mask_of in Htpl.
    cbn [video_capture cap_fps]. rewrite Hfps. cbn [Z.eqb].
    destruct (PyStr.is_gif_path (template_path tpl)).
    - destruct (extract_gif_frames tpl); [discriminate|reflexivity].
    - destruct (imread tpl); [reflexivity|discriminate]. }
  split; [exact Hstep|].
  intros w ts audio video t Haudio Hvideo Htpl Hfps.
  unfold process_narasi_mode. rewrite Haudio. cbn [bind lift_io].
  unfold narasi_steps. rewrite Hvideo, Htpl. cbn [bind lift_io].
  destruct (N.eqb _ 0); [reflexivity|].
  rewrite (Hstep video _ t) by assumption. reflexivity.
Qed.

End NarasiByIndex.

Section NarasiByIndexExamples.
#[local] Existing Instances Example.imaging Example.pil Example.text_rendering.

Lemma nonpositive_target_writes_nothing_witness :
  Narasi.process_concatenated_video_with_template Example.two_frames
    Example.static_template [255%N] None (-1 # 2) = Returned (true, []).
Proof.
  apply (nonpositive_target_writes_nothing Example.two_frames
           Example.static_template 7%nat [255%N] None (-1 # 2)).
  - reflexivity.
  - reflexivity.
  - discriminate.
Defined.

Lemma longer_target_extends_output_witness :
  exists out1 out2,
    Narasi.process_concatenated_video_with_template Example.two_frames
      Example.gif_template [255%N] None (1 # 8) = Returned (true, out1) /\
    Narasi.process_concatenated_video_with_template Example.two_frames
      Example.gif_template [255%N] None (1 # 4) = Returned (true, out2) /\
    out1 = firstn (List.length out1) out2.
Proof.
  apply (longer_target_extends_output Example.two_frames Example.gif_template
           4%nat [255%N] None (1 # 8) (1 # 4)).
  - reflexivity.
  - reflexivity.
  - discriminate.
Defined.

Lemma output_repeats_with_period_witness :
  exists out,
    Narasi.process_concatenated_video_with_template Example.two_frames
      Example.gif_template [255%N] None (1 # 2) = Returned (true, out) /\
    forall i, (i + 6 < List.length out)%nat ->
      nth_error out (i + 6) = nth_error out i.
Proof.
  apply (output_repeats_with_period Example.two_frames Example.gif_template
           4%nat [255%N] None (1 # 2)).
  - reflexivity.
  - discriminate.
Defined.

Lemma zero_rate_fails_before_loop_witness :
  Narasi.process_concatenated_video_with_template Example.unopened
    Example.green_template [255%N] None (1 # 2) = Raised "division by zero" /\
  Narasi.process_narasi_mode
    (Example.narasi_world_of (Ok Example.unopened) Example.green_template
       Example.io_ok) None =
  Returned {| Narasi.success := false; Narasi.composited := [];
              Narasi.output := Moviepy.NoOutput |}.
Proof.
  pose proof (@zero_rate_fails_before_loop
                Example.imaging Example.pil Example.text_rendering)
    as [Hstep Hmode].
  split.
  - apply (Hstep Example.unopened Example.green_template 8%nat); reflexivity.
  - apply (Hmode _ None Example.narration Example.unopened 8%nat); reflexivity.
Defined.

End NarasiByIndexExamples.

(** ** Narasi mode as a whole *)

Section NarasiMode.
Context `{TextOverlay.TextRendering}.
Import TextOverlay Narasi.

Lemma process_concatenated_no_fuel video tpl mask ts T :
  process_concatenated_video_with_template video tpl mask ts T <> OutOfFuel.
Proof.
  destruct (template_for_mask_of tpl) as [t|e|] eqn:Htpl.
  - destruct (Z.eq_dec (Py.int (file_fps video)) 0) as [Hz|Hnz].
    + unfold process_concatenated_video_with_template,
        process_concatenated_video_with_gif_template, target_frames_of.
      unfold template_for_mask_of in Htpl.
      cbn [video_capture cap_fps]. rewrite Hz. cbn [Z.eqb].
      destruct (PyStr.is_gif_path (template_path tpl)).
      * destruct (extract_gif_frames tpl); discriminate.
      * destruct (imread tpl); discriminate.
    + rewrite (process_concatenated_by_index video tpl t) by assumption.
      discriminate.
  - unfold process_concatenated_video_with_template,
      process_concatenated_video_with_gif_template.
    unfold template_for_mask_of in Htpl.
    destruct (PyStr.is_gif_path (template_path tpl)).
    + destruct (extract_gif_frames tpl); discriminate.
    + destruct (imread tpl); discriminate.
  - unfold template_for_mask_of in Htpl.
    destruct (PyStr.is_gif_path (template_path tpl)).
    + destruct (extract_gif_frames tpl); discriminate.
    + destruct (imread tpl); discriminate.
Qed.

Lemma add_audio_to_narasi_video_returns io temp T :
  exists r, add_audio_to_narasi_video io temp T = Returned r.
Proof.
  unfold add_audio_to_narasi_video, add_audio_try, add_audio_fallback.
  split_calls; eexists; reflexivity.
Qed.

Lemma narasi_steps_no_fuel w ts T : narasi_steps w ts T <> OutOfFuel.
Proof.
  unfold narasi_steps.
  destruct (concatenated w) as [video|e]; cbn [bind lift_io]; [|discriminate].
  destruct (template_for_mask_of (template_file w)) as [t|e|] eqn:Htpl;
    cbn [bind]; [|discriminate|].
  - destruct (N.eqb _ 0); [discriminate|].
    match goal with
    | |- context [process_concatenated_video_with_template ?v ?p ?m ?s ?d] =>
        pose proof (process_concatenated_no_fuel v p m s d) as Hf;
        destruct (process_concatenated_video_with_template v p m s d) as [r|e|]
    end; cbn [bind]; [|discriminate|congruence].
    destruct (negb (fst r)); [discriminate|].
    destruct (add_audio_to_narasi_video_returns (audio_io w) (snd r) T) as [a Ha].
    rewrite Ha. discriminate.
  - unfold template_for_mask_of in Htpl.
    destruct (PyStr.is_gif_path _).
    + destruct (extract_gif_frames _); discriminate.
    + destruct (imread _); discriminate.
Qed.




End NarasiMode.

Section NarasiModeExamples.
#[local] Existing Instances Example.imaging Example.pil Example.text_rendering.


End NarasiModeExamples.

(** ** Choosing and applying the audio *)

Section AudioChoice.
Import Processor.


(** X8. The audio in the output agrees with the mode: a dual mix only
    with dual audio on and a mix call that returned [True]; background
    music only with dual audio off, background music on and its call
    returning [True]; the silent copy only after an exception. *)
Theorem audio_result_respects_mode ops s r :
  handle_audio_processing ops s = Returned r ->
  match r with
  | DualMixed bg =>
      dual_audio_enabled s = true /\
      get_random_audio_file ops (folder_path s) = Returned (Some bg) /\
      add_dual_audio_to_video ops bg (original_volume s) (background_volume s)
        = Ok true
  | BackgroundMusic bg =>
      dual_audio_enabled s = false /\ audio_enabled s = true /\
      get_random_audio_file ops (folder_path s) = Returned (Some bg) /\
      add_background_music_to_video ops bg (background_volume s) = Ok true
  | OriginalAudio => exists b, add_audio_to_video ops = Ok b
  | CopiedWithoutAudio =>
      raises (handle_audio_try ops s) /\ temp_exists ops = true /\
      copy_temp ops = Ok tt
  | NothingWritten => raises (handle_audio_try ops s)
  end.
Proof.
  unfold handle_audio_processing.
  destruct (handle_audio_try ops s) as [r'|e|] eqn:Htry; cbn [try_except].
  - intros E. injection E as <-. revert Htry.
    unfold handle_audio_try, use_original_audio.
    destruct (dual_audio_enabled s), (truthy (folder_path s)), (audio_enabled s);
      cbn [andb];
      try (destruct (get_random_audio_file ops (folder_path s)) as [[bg|]|e|];
           cbn [bind]);
      split_calls; intros E; try discriminate E; apply Returned_inj in E;
      try discriminate E; try (injection E as <-);
      repeat split; try reflexivity; try assumption; eauto.
  - unfold handle_audio_except.
    destruct (temp_exists ops); [destruct (copy_temp ops) as [[]|e']|];
      intros E; apply Returned_inj in E; subst r; repeat split;
      try (exists e; reflexivity).
  - discriminate.
Qed.

(** X9. When no background file can be chosen - no folder, no audio in
    it - every mode falls back to the original audio. *)
Theorem no_background_file_uses_original_audio ops s b :
  get_random_audio_file ops (folder_path s) = Returned None ->
  add_audio_to_video ops = Ok b ->
  handle_audio_processing ops s = Returned OriginalAudio.
Proof.
  intros Hnone Horig.
  unfold handle_audio_processing, handle_audio_try, use_original_audio.
  rewrite Hnone, Horig. cbn [bind lift_io].
  destruct (dual_audio_enabled s), (truthy (folder_path s)), (audio_enabled s);
    reflexivity.
Qed.

End AudioChoice.

Section AudioChoiceExamples.
Import Processor.



Lemma audio_result_respects_mode_witness :
  dual_audio_enabled Example.audio_dual = true /\
  get_random_audio_file Example.ops_ok (folder_path Example.audio_dual)
    = Returned (Some "music/song.mp3"%string) /\
  add_dual_audio_to_video Example.ops_ok "music/song.mp3"
    (original_volume Example.audio_dual) (background_volume Example.audio_dual)
    = Ok true.
Proof.
  apply (audio_result_respects_mode Example.ops_ok Example.audio_dual
           (DualMixed "music/song.mp3")).
  reflexivity.
Defined.

Lemma no_background_file_uses_original_audio_witness :
  handle_audio_processing Example.ops_ok Example.audio_off = Returned OriginalAudio.
Proof.
  apply (no_background_file_uses_original_audio Example.ops_ok Example.audio_off true);
    reflexivity.
Defined.

End AudioChoiceExamples.

(** ** Converting GIF inputs *)

Section GifJobs.
Context `{TextOverlay.TextRendering}.
Import TextOverlay Processor.

(** X10. Converting a GIF input never lets an exception out: every
    failure becomes [False]. It reports [True] only when the GIF had
    frames, one output frame was written per GIF frame, and the audio
    step returned. *)
Theorem gif_conversion_never_raises :
  (forall j blur ts s,
     exists r,
       process_gif_to_mp4_blur j blur ts s = Returned r /\
       (job_ok r = true ->
        exists frames o,
          job_gif_frames j = Ok frames /\ frames <> [] /\
          List.length (job_frames r) = List.length frames /\
          handle_gif_audio_processing (job_ops j) (job_io j) (job_frames r) s
            = Returned o /\
          job_output r = Some o)) /\
  (forall j tpl mask ts s,
     exists r,
       process_gif_to_mp4_greenscreen j tpl mask ts s = Returned r /\
       (job_ok r = true ->
        exists frames o t,
          job_gif_frames j = Ok frames /\ frames <> [] /\
          get_template_for_processing tpl = Returned t /\
          List.length (job_frames r) = List.length frames /\
          handle_gif_audio_processing (job_ops j) (job_io j) (job_frames r) s
            = Returned o /\
          job_output r = Some o)).
Proof.
  split.
  - intros j blur ts s. unfold process_gif_to_mp4_blur.
    destruct (job_gif_frames j) as [[|f fs]|e]; cbn [bind lift_io try_except];
      try (eexists; split; [reflexivity|discriminate]).
    match goal with
    | |- context [handle_gif_audio_processing ?o ?i ?t ?a] =>
        pose proof (handle_gif_audio_processing_no_fuel o i t a) as Hf;
        destruct (handle_gif_audio_processing o i t a) as [out|e|] eqn:Hg
    end; cbn [bind try_except]; [| |congruence].
    + eexists. split; [reflexivity|]. intros _. cbn [job_frames job_output].
      exists (f :: fs), out. repeat split; try assumption; try discriminate.
      rewrite length_map. reflexivity.
    + eexists; split; [reflexivity|discriminate].
  - intros j tpl mask ts s. unfold process_gif_to_mp4_greenscreen.
    destruct (job_gif_frames j) as [[|f fs]|e]; cbn [bind lift_io try_except];
      try (eexists; split; [reflexivity|discriminate]).
    pose proof (get_template_for_processing_no_fuel tpl) as Ht.
    destruct (get_template_for_processing tpl) as [t|e|]; cbn [bind try_except];
      [|eexists; split; [reflexivity|discriminate]|congruence].
    match goal with
    | |- context [handle_gif_audio_processing ?o ?i ?t ?a] =>
        pose proof (handle_gif_audio_processing_no_fuel o i t a) as Hf;
        destruct (handle_gif_audio_processing o i t a) as [out|e|] eqn:Hg
    end; cbn [bind try_except]; [| |congruence].
    + eexists. split; [reflexivity|]. intros _. cbn [job_frames job_output].
      exists (f :: fs), out, t. repeat split; try assumption; try discriminate.
      rewrite length_map. reflexivity.
    + eexists; split; [reflexivity|discriminate].
Qed.


(** X12. A video input counts as successful as soon as its processing
    call comes back, whatever it returns: with an animated template whose
    compositing reports failure, [process_single_video_greenscreen]
    returns [False] and writes nothing, and the job is counted all the
    same. *)
Theorem video_job_counted_although_it_failed g mask ts j :
  job_is_gif j = false ->
  is_greenscreen (processing_mode g) = true ->
  PyStr.is_gif_path (Narasi.template_path (template_file g)) = true ->
  job_gif_template_video j = Ok false ->
  process_single_video_greenscreen j (template_file g) mask ts (audio_settings g)
    = Returned failed_job /\
  run_job g mask ts j = Returned true.
Proof.
  intros Hgif Hmode Htpl Hfail.
  assert (Hjob : process_single_video_greenscreen j (template_file g) mask ts
                   (audio_settings g) = Returned failed_job).
  { unfold process_single_video_greenscreen. rewrite Htpl, Hfail. reflexivity. }
  split; [exact Hjob|].
  unfold run_job. rewrite Hgif, Hmode, Hjob. reflexivity.
Qed.

End GifJobs.

Section GifJobsExamples.
#[local] Existing Instances Example.imaging Example.pil Example.text_rendering.
Import Processor.

Lemma gif_conversion_never_raises_witness :
  exists frames o,
    job_gif_frames Example.gif_job = Ok frames /\ frames <> [] /\
    List.length ([1; 2]%nat : list Frame) = List.length frames /\
    handle_gif_audio_processing Example.ops_ok Example.io_ok [1; 2]%nat
      Example.audio_off = Returned o /\
    Some (Moviepy.VideoOnly ([1; 2]%nat : list Frame)) = Some o.
Proof.
  destruct (proj1 (@gif_conversion_never_raises
                     Example.imaging Example.pil Example.text_rendering)
              Example.gif_job Example.blur_defaults None Example.audio_off)
    as (r & Hr & Hok).
  vm_compute in Hr. apply Returned_inj in Hr. subst r.
  apply Hok. reflexivity.
Defined.


Lemma video_job_counted_although_it_failed_witness :
  process_single_video_greenscreen Example.rejected_job Example.gif_template
    [255%N] (Example.settings 50) Example.audio_off = Returned failed_job /\
  run_job (Example.gui "greenscreen" Example.gif_template Example.io_ok)
    [255%N] (Example.settings 50) Example.rejected_job = Returned true.
Proof.
  apply (video_job_counted_although_it_failed
           (Example.gui "greenscreen" Example.gif_template Example.io_ok)
           [255%N] (Example.settings 50) Example.rejected_job); reflexivity.
Defined.

End GifJobsExamples.

(** ** The batch as a whole *)

Section BatchWhole.
Context `{TextOverlay.TextRendering}.
Import TextOverlay Processor.

Lemma percentage_in_range (current total : nat) :
  (current <= total)%nat -> (1 <= total)%nat ->
  progress_ok (EvProgress current total "").
Proof.
  intros Hle Hpos. unfold progress_ok, Progress.update_progress.
  destruct (Nat.eqb_spec total 0) as [Hz|_]; [lia|].
  eexists. split; [reflexivity|].
  assert (Ht : (0 < inject_Z (Z.of_nat total))%Q)
    by (change 0%Q with (inject_Z 0); rewrite <- Zlt_Qlt; lia).
  assert (Hc : (0 <= inject_Z (Z.of_nat current))%Q)
    by (change 0%Q with (inject_Z 0); rewrite <- Zle_Qle; lia).
  assert (Hct : (inject_Z (Z.of_nat current) <= inject_Z (Z.of_nat total))%Q)
    by (rewrite <- Zle_Qle; lia).
  assert (Hlo : (0 <= inject_Z (Z.of_nat current) / inject_Z (Z.of_nat total))%Q)
    by (apply Qle_shift_div_l; [exact Ht|lra]).
  assert (Hhi : (inject_Z (Z.of_nat current) / inject_Z (Z.of_nat total) <= 1)%Q)
    by (apply Qle_shift_div_r; [exact Ht|lra]).
  split; lra.
Qed.

Lemma progress_ok_any_name current total name name' :
  progress_ok (EvProgress current total name) ->
  progress_ok (EvProgress current total name').
Proof. exact (fun H => H). Qed.

Lemma batch_events_progress_ok g mask ts total jobs :
  forall i, (i + List.length jobs <= total)%nat ->
  Forall progress_ok (batch_events g mask ts total jobs i).
Proof.
  induction jobs as [|j rest IH]; intros i Hi; cbn [batch_events]; [constructor|].
  cbn [List.length] in Hi.
  constructor.
  - apply (progress_ok_any_name _ _ ""). apply percentage_in_range; lia.
  - constructor.
    + unfold job_report. destruct (run_job g mask ts j) as [[|]|e|]; exact I.
    + apply IH. lia.
Qed.

Lemma narasi_process_no_fuel w ts : Narasi.process_narasi_mode w ts <> OutOfFuel.
Proof.
  unfold Narasi.process_narasi_mode.
  destruct (Narasi.open_audio_clip (Narasi.audio_io w)) as [audio|e];
    cbn [bind lift_io]; [|discriminate].
  pose proof (narasi_steps_no_fuel w ts (Moviepy.duration audio)) as Hf.
  destruct (Narasi.narasi_steps w ts (Moviepy.duration audio));
    cbn [try_except]; congruence.
Qed.

(** What [VideoProcessor.process_narasi_mode] can end with. *)
Lemma narasi_wrapper_returns g :
  exists r, process_narasi_mode g = Returned r /\ Forall progress_ok (events r).
Proof.
  unfold process_narasi_mode, stop_with.
  destruct (negb (truthy (background_image_path g))); cbn [try_except];
    [eexists; split; [reflexivity|constructor]|].
  destruct (negb (truthy (narasi_audio_path g))); cbn [try_except];
    [eexists; split; [reflexivity|constructor]|].
  destruct (narasi_output_path g) as [path|e]; cbn [bind lift_io try_except];
    [|eexists; split; [reflexivity|constructor]].
  pose proof (narasi_process_no_fuel (narasi_world g)
                (Some (narasi_text_settings g))) as Hf.
  destruct (Narasi.process_narasi_mode (narasi_world g)
              (Some (narasi_text_settings g))) as [r|e|];
    cbn [bind try_except]; [| |congruence].
  - destruct (Narasi.success r); cbn [try_except];
      (eexists; split; [reflexivity|]); cbn [events app];
      repeat constructor;
      try (apply (progress_ok_any_name _ _ ""); apply percentage_in_range; lia).
  - eexists; split; [reflexivity|constructor].
Qed.

Lemma mode_setup_no_fuel g : mode_setup g <> OutOfFuel.
Proof.
  unfold mode_setup.
  pose proof (get_template_for_processing_no_fuel (template_file g)) as Ht.
  destruct (is_greenscreen (processing_mode g)); [|discriminate].
  destruct (get_template_for_processing (template_file g)); cbn [bind];
    [destruct (N.eqb _ 0); discriminate|discriminate|congruence].
Qed.

Lemma audio_validation_no_fuel g : audio_validation g <> OutOfFuel.
Proof. unfold audio_validation. split_calls; discriminate. Qed.

(** X13. The worker always ends with a status for the user: whatever
    the files, the settings and the library calls do, [process_videos_bulk]
    returns; and every progress update it makes has a total of at least 1
    and a position within it, so the percentage is computed without a
    division by zero and lies between 0 and 100. *)
Theorem bulk_always_reports_with_sound_progress g :
  exists r,
    process_videos_bulk g = Returned r /\ Forall progress_ok (events r).
Proof.
  unfold process_videos_bulk, process_thread_try, stop_with.
  destruct (files_to_process g) as [|j js] eqn:Ej; cbn [try_except];
    [eexists; split; [reflexivity|constructor]|].
  destruct (String.eqb (processing_mode g) "narasi").
  { destruct (narasi_wrapper_returns g) as (r & Hr & Hp).
    rewrite Hr. cbn [try_except]. eauto. }
  destruct (andb _ _); cbn [try_except];
    [eexists; split; [reflexivity|constructor]|].
  pose proof (mode_setup_no_fuel g) as Hs.
  destruct (mode_setup g) as [[msg|[mask ts]]|e|]; cbn [bind try_except];
    [eexists; split; [reflexivity|constructor]| |
     eexists; split; [reflexivity|constructor]|congruence].
  pose proof (audio_validation_no_fuel g) as Hv.
  destruct (audio_validation g) as [[msg|]|e|]; cbn [bind try_except];
    [eexists; split; [reflexivity|constructor]| |
     eexists; split; [reflexivity|constructor]|congruence].
  destruct (create_output_folder g) as [folder|e]; cbn [bind lift_io try_except];
    [|eexists; split; [reflexivity|constructor]].
  rewrite job_loop_spec. cbn [bind try_except fst snd app].
  eexists. split; [reflexivity|]. cbn [events].
  apply Forall_app. split.
  - apply batch_events_progress_ok. cbn [List.length]. lia.
  - repeat constructor.
    apply (progress_ok_any_name _ _ ""). apply percentage_in_range;
      cbn [List.length]; lia.
Qed.

End BatchWhole.

Section BatchAccounting.
Context `{TextOverlay.TextRendering}.
Import TextOverlay Processor.




(** X15. With background music or dual audio switched on, a batch that
    has no audio folder, or a folder without audio files, stops with a
    message before any file is processed. *)
Theorem missing_audio_stops_the_batch g mask ts :
  files_to_process g <> [] ->
  String.eqb (processing_mode g) "narasi" = false ->
  andb (is_greenscreen (processing_mode g))
       (negb (truthy (background_image_path g))) = false ->
  mode_setup g = Returned (inr (mask, ts)) ->
  orb (audio_enabled (audio_settings g)) (dual_audio_enabled (audio_settings g)) = true ->
  (truthy (folder_path (audio_settings g)) = false ->
   process_videos_bulk g =
   Returned {| events := []; status := "Pilih folder audio terlebih dahulu!" |}) /\
  (truthy (folder_path (audio_settings g)) = true ->
   audio_folder_files g = Ok [] ->
   process_videos_bulk g =
   Returned {| events := [];
               status := "Tidak ada file audio ditemukan di folder!" |}).
Proof.
  intros Hfiles Hmode Hpath Hsetup Hon.
  unfold process_videos_bulk, process_thread_try, audio_validation, stop_with.
  destruct (files_to_process g) as [|j js]; [congruence|].
  rewrite Hmode, Hpath, Hsetup, Hon. cbn [bind].
  split.
  - intros Hfolder. rewrite Hfolder. reflexivity.
  - intros Hfolder Hempty. rewrite Hfolder, Hempty. reflexivity.
Qed.

Lemma run_job_ignores_template g path tpl mask ts j :
  is_greenscreen (processing_mode g) = false ->
  run_job (with_template g path tpl) mask ts j = run_job g mask ts j.
Proof.
  intros Hmode. unfold run_job. cbn [with_template processing_mode blur_settings
                                     audio_settings template_file].
  rewrite Hmode. reflexivity.
Qed.

Lemma job_loop_ignores_template g path tpl mask ts total jobs :
  is_greenscreen (processing_mode g) = false ->
  forall i successful evs,
    job_loop (with_template g path tpl) mask ts total jobs i successful evs
    = job_loop g mask ts total jobs i successful evs.
Proof.
  intros Hmode. induction jobs as [|j rest IH]; intros i successful evs;
    [reflexivity|].
  cbn [job_loop]. rewrite run_job_ignores_template by exact Hmode.
  destruct (run_job g mask ts j) as [[|]|e|]; try apply IH; reflexivity.
Qed.

(** X16. Outside greenscreen and narasi mode the selected template plays
    no part: the batch gives the same events and the same final status
    whatever template is selected, and even when none can be loaded. *)
Theorem blur_batch_ignores_template g path tpl :
  is_greenscreen (processing_mode g) = false ->
  String.eqb (processing_mode g) "narasi" = false ->
  process_videos_bulk (with_template g path tpl) = process_videos_bulk g.
Proof.
  intros Hgreen Hnarasi.
  unfold process_videos_bulk, process_thread_try, mode_setup, audio_validation,
    done_status, done_suffix.
  cbn [with_template processing_mode files_to_process background_image_path
       template_file text_settings blur_text_settings blur_settings
       audio_settings gpu_enabled audio_folder_files create_output_folder].
  rewrite Hgreen, Hnarasi. cbn [andb bind].
  destruct (files_to_process g) as [|j js] eqn:Ej; [reflexivity|].
  destruct (orb _ _); [destruct (negb _); [reflexivity|];
                      destruct (audio_folder_files g) as [[|a l]|e];
                      cbn [bind lift_io]; try reflexivity|];
    cbn [bind]; destruct (create_output_folder g); cbn [bind lift_io];
    try reflexivity;
    rewrite job_loop_ignores_template by exact Hgreen; reflexivity.
Qed.

End BatchAccounting.

Section BatchAccountingExamples.
#[local] Existing Instances Example.imaging Example.pil Example.text_rendering.
Import Processor.


Lemma missing_audio_stops_the_batch_witness :
  process_videos_bulk (Example.gui_with_audio Example.audio_no_folder (Ok [])) =
  Returned {| events := []; status := "Pilih folder audio terlebih dahulu!" |} /\
  process_videos_bulk (Example.gui_with_audio Example.audio_dual (Ok [])) =
  Returned {| events := []; status := "Tidak ada file audio ditemukan di folder!" |}.
Proof.
  split.
  - apply (proj1 (missing_audio_stops_the_batch
                    (Example.gui_with_audio Example.audio_no_folder (Ok []))
                    [] (Example.settings 50)
                    ltac:(discriminate) eq_refl eq_refl eq_refl eq_refl)).
    reflexivity.
  - apply (proj2 (missing_audio_stops_the_batch
                    (Example.gui_with_audio Example.audio_dual (Ok []))
                    [] (Example.settings 50)
                    ltac:(discriminate) eq_refl eq_refl eq_refl eq_refl));
      reflexivity.
Defined.

Lemma blur_batch_ignores_template_witness :
  process_videos_bulk
    (with_template (Example.gui "blur" Example.green_template Example.io_ok)
       "" Example.static_template)
  = process_videos_bulk (Example.gui "blur" Example.green_template Example.io_ok).
Proof.
  apply (blur_batch_ignores_template
           (Example.gui "blur" Example.green_template Example.io_ok)
           "" Example.static_template); reflexivity.
Defined.

End BatchAccountingExamples.

(** ** More on the audio panel *)

Section AudioPanelMore.
Import Gui.

Lemma handle_keeps_widgets_matching p e :
  exclusive p -> widgets_match (handle p e).
Proof.
  unfold exclusive, widgets_match.
  destruct e, p as [a d b v o fg]; destruct a, d; cbn; intros Hx;
    try discriminate Hx; repeat split.
Qed.

(** X17. After any sequence of audio-mode events the widgets agree with
    the flags: the original-volume slider is enabled exactly in dual
    mode, and the background-volume slider and the folder button exactly
    when background music or dual audio is on. *)
Theorem audio_widgets_follow_the_flags (es : list AudioEvent) :
  widgets_match (run initial_panel es).
Proof.
  assert (Hinv : forall es p, exclusive p /\ widgets_match p ->
                   exclusive (run p es) /\ widgets_match (run p es)).
  { clear es. unfold run. induction es as [|e es IH]; intros p [Hx Hw];
      cbn [fold_left]; [split; assumption|].
    apply IH. split; [apply handle_establishes_exclusive|].
    apply handle_keeps_widgets_matching. exact Hx. }
  apply Hinv. split; [reflexivity|]. repeat split.
Qed.

(** X18. Switching dual audio on and off again is not a round trip:
    whatever was selected before, the panel ends in "original audio
    only" with every audio control disabled. *)
Theorem dual_audio_on_off_ends_in_original_only (p : AudioPanel) :
  dual_audio_enabled p = false ->
  run p [ToggleDualAudio; ToggleDualAudio] =
  {| audio_enabled := false; dual_audio_enabled := false;
     select_audio_folder_btn := DISABLED;
     background_volume_scale := DISABLED;
     original_volume_scale := DISABLED;
     audio_folder_label_fg := "#7f8c8d" |}.
Proof.
  destruct p as [a d b v o fg]. cbn [dual_audio_enabled]. intros ->.
  destruct a; reflexivity.
Qed.

Lemma dual_audio_on_off_ends_in_original_only_witness :
  run (handle initial_panel SelectBackgroundOnly)
    [ToggleDualAudio; ToggleDualAudio] =
  {| audio_enabled := false; dual_audio_enabled := false;
     select_audio_folder_btn := DISABLED;
     background_volume_scale := DISABLED;
     original_volume_scale := DISABLED;
     audio_folder_label_fg := "#7f8c8d" |}.
Proof.
  apply (dual_audio_on_off_ends_in_original_only
           (handle initial_panel SelectBackgroundOnly)).
  reflexivity.
Defined.

End AudioPanelMore.

(** ** More on the blur preview geometry *)

Section InsetMore.
Import Gui.

(** [inset_geometry] is sizing followed by one [slider_offset] per axis. *)
Lemma inset_geometry_in_parts h w c :
  inset_geometry h w c =
  (sized <- inset_size h w c ;;
   Returned {| x_offset := slider_offset (video_x_position c)
                             (preview_width - fst sized);
               y_offset := slider_offset (video_y_position c)
                             (preview_height - snd sized);
               new_width := fst sized; new_height := snd sized |}).
Proof.
  unfold inset_geometry, inset_size, cropped_height, slider_offset.
  destruct (_ =? 0); [reflexivity|].
  destruct (Qlt_le_dec _ _); [reflexivity|].
  destruct (Qeq_bool _ 0); reflexivity.
Qed.

Lemma inset_size_ignores_position h w c x y :
  inset_size h w (positioned c x y) = inset_size h w c.
Proof. reflexivity. Qed.

Lemma int_percent (a : Z) : Py.int (inject_Z a / 100)%Q = Z.quot a 100.
Proof.
  unfold Py.int, Qdiv, Qmult, Qinv, inject_Z. cbn [Qnum Qden].
  rewrite Z.mul_1_r. reflexivity.
Qed.

(** The crop sliders (0..40 each) leave at least a fifth of the frame. *)
Lemma cropped_height_positive h c :
  1 <= h -> 0 <= crop_top c <= 40 -> 0 <= crop_bottom c <= 40 ->
  1 <= cropped_height h c.
Proof.
  intros Hh Ht Hb. unfold cropped_height, slice_len. rewrite !int_percent.
  assert (0 <= h * crop_top c <= 40 * h) by nia.
  assert (0 <= h * crop_bottom c <= 40 * h) by nia.
  rewrite !Z.quot_div_nonneg by lia.
  pose proof (Z.div_mod (h * crop_top c) 100 ltac:(lia)).
  pose proof (Z.mod_pos_bound (h * crop_top c) 100 ltac:(lia)).
  pose proof (Z.div_mod (h * crop_bottom c) 100 ltac:(lia)).
  pose proof (Z.mod_pos_bound (h * crop_bottom c) 100 ltac:(lia)).
  lia.
Qed.

Lemma slider_offset_bounds position room :
  0 <= room -> 0 <= slider_offset position room <= room.
Proof. unfold slider_offset. lia. Qed.

Lemma slider_offset_left room : slider_offset 0 room = 0.
Proof.
  unfold slider_offset. destruct (0 <? room) eqn:E; [|lia].
  apply Z.ltb_lt in E.
  replace (Py.int (inject_Z 0 / 100 * inject_Z room)%Q) with 0; [lia|].
  symmetry. apply Z.quot_0_l. discriminate.
Qed.

Lemma slider_offset_right room : 0 <= room -> slider_offset 100 room = room.
Proof.
  intros Hroom. unfold slider_offset. destruct (Z.ltb_spec 0 room); [|lia].
  replace (Py.int (inject_Z 100 / 100 * inject_Z room)%Q) with room; [lia|].
  unfold Py.int, Qdiv, Qmult, Qinv, inject_Z. cbn [Qnum Qden Pos.mul].
  change (Z.pos (100 * 1)) with 100.
  replace (100 * 1 * room) with (room * 100) by lia.
  symmetry. apply Z.quot_mul. discriminate.
Qed.

Lemma slider_offset_monotone p1 p2 room :
  p1 <= p2 -> slider_offset p1 room <= slider_offset p2 room.
Proof.
  intros Hp. unfold slider_offset. destruct (Z.ltb_spec 0 room); [|lia].
  assert (Py.int (inject_Z p1 / 100 * inject_Z room)%Q
          <= Py.int (inject_Z p2 / 100 * inject_Z room)%Q); [|lia].
  apply int_monotone. apply Qmult_le_compat_r.
  - apply Qmult_le_compat_r; [rewrite <- Zle_Qle; exact Hp|].
    unfold Qle, Qinv. cbn. lia.
  - change 0%Q with (inject_Z 0). rewrite <- Zle_Qle. lia.
Qed.

(** X19. With the crop sliders in their range (0..40 each) and a frame
    of at least one pixel, the geometry never divides by zero: it
    returns, one dimension of the inset is the fixed share of the preview
    (height 171 for frames wider than 9:16, else width 112), and
    offsets and sizes are not negative. *)
Theorem inset_geometry_returns_for_slider_crops h w c :
  1 <= h -> 1 <= w ->
  0 <= crop_top c <= 40 -> 0 <= crop_bottom c <= 40 ->
  exists r,
    inset_geometry h w c = Returned r /\
    (new_height r = 171 \/ new_width r = 112) /\
    0 <= new_width r /\ 0 <= new_height r /\
    0 <= x_offset r /\ 0 <= y_offset r.
Proof.
  intros Hh Hw Ht Hb.
  pose proof (cropped_height_positive h c Hh Ht Hb) as Hc.
  rewrite inset_geometry_in_parts. unfold inset_size.
  destruct (Z.eqb_spec (cropped_height h c) 0) as [Hz|_]; [lia|].
  assert (Hratio : (0 < inject_Z w / inject_Z (cropped_height h c))%Q).
  { apply Qlt_shift_div_l.
    - change 0%Q with (inject_Z 0). rewrite <- Zlt_Qlt. lia.
    - rewrite Qmult_0_l. change 0%Q with (inject_Z 0). rewrite <- Zlt_Qlt. lia. }
  set (ratio := (inject_Z w / inject_Z (cropped_height h c))%Q) in *.
  change (Py.int (inject_Z preview_height * (6 # 10))%Q) with 171.
  change (Py.int (inject_Z preview_width * (7 # 10))%Q) with 112.
  destruct (Qlt_le_dec (9 # 16) ratio) as [Hwide|Hnarrow]; cbn [bind fst snd].
  - eexists. split; [reflexivity|]. cbn [new_width new_height x_offset y_offset].
    split; [left; reflexivity|].
    split; [apply int_nonneg; apply Qmult_le_0_compat; [discriminate|lra]|].
    split; [lia|]. unfold slider_offset. lia.
  - destruct (Qeq_bool ratio 0) eqn:Ez.
    + apply Qeq_bool_iff in Ez. lra.
    + cbn [bind fst snd]. eexists. split; [reflexivity|].
      cbn [new_width new_height x_offset y_offset].
      split; [right; reflexivity|]. split; [lia|].
      split; [apply int_nonneg; apply Qle_shift_div_l; [exact Hratio|];
              rewrite Qmult_0_l; discriminate|].
      unfold slider_offset. lia.
Qed.

(** X20. For a cropped frame whose width-to-height ratio lies between
    112/285 and 160/171 the inset fits: the geometry returns an inset
    inside the preview canvas and the paste succeeds. *)
Theorem inset_fits_for_moderate_ratios h w c :
  1 <= cropped_height h c ->
  (112 # 285 <= inject_Z w / inject_Z (cropped_height h c))%Q ->
  (inject_Z w / inject_Z (cropped_height h c) <= 160 # 171)%Q ->
  exists r,
    blur_preview_inset h w c = Returned r /\ contained r.
Proof.
  intros Hc Hlo Hhi.
  assert (Hgeo : exists r, inset_geometry h w c = Returned r /\
                           0 <= new_width r <= preview_width /\
                           0 <= new_height r <= preview_height).
  { rewrite inset_geometry_in_parts. unfold inset_size.
    destruct (Z.eqb_spec (cropped_height h c) 0) as [Hz|_]; [lia|].
    set (ratio := (inject_Z w / inject_Z (cropped_height h c))%Q) in *.
    change (Py.int (inject_Z preview_height * (6 # 10))%Q) with 171.
    change (Py.int (inject_Z preview_width * (7 # 10))%Q) with 112.
    destruct (Qlt_le_dec (9 # 16) ratio) as [Hwide|Hnarrow]; cbn [bind fst snd].
    - eexists. split; [reflexivity|]. cbn [new_width new_height].
      unfold preview_width, preview_height. split; [|lia]. split.
      + apply int_nonneg. apply Qmult_le_0_compat; [discriminate|lra].
      + change 160 with (Py.int 160). apply int_monotone.
        change (inject_Z 171) with 171%Q. lra.
    - destruct (Qeq_bool ratio 0) eqn:Ez; [apply Qeq_bool_iff in Ez; lra|].
      cbn [bind fst snd]. eexists. split; [reflexivity|].
      cbn [new_width new_height]. unfold preview_width, preview_height.
      split; [lia|]. split.
      + apply int_nonneg. apply Qle_shift_div_l; [lra|].
        rewrite Qmult_0_l. discriminate.
      + change 285 with (Py.int 285). apply int_monotone.
        apply Qle_shift_div_r; [lra|]. change (inject_Z 112) with 112%Q. lra. }
  destruct Hgeo as (r & Hr & Hw & Hh).
  pose proof (inset_contained_when_it_fits h w c r Hr Hw Hh) as Hin.
  exists r. split; [|exact Hin].
  unfold blur_preview_inset. rewrite Hr. cbn [bind].
  unfold paste_inset, slice_len. unfold contained in Hin.
  destruct Hin as (Hx0 & Hx1 & Hy0 & Hy1).
  replace (Z.max 0 (Z.min (y_offset r + new_height r) preview_height
                    - Z.min (y_offset r) preview_height)) with (new_height r) by lia.
  replace (Z.max 0 (Z.min (x_offset r + new_width r) preview_width
                    - Z.min (x_offset r) preview_width)) with (new_width r) by lia.
  rewrite !Z.eqb_refl. reflexivity.
Qed.

(** X21. The position sliders only move the inset, and in the expected
    direction: a larger slider value never gives a smaller offset, and
    the size of the inset does not depend on the sliders. *)
Theorem sliders_move_the_inset h w c x1 y1 x2 y2 r1 r2 :
  x1 <= x2 -> y1 <= y2 ->
  inset_geometry h w (positioned c x1 y1) = Returned r1 ->
  inset_geometry h w (positioned c x2 y2) = Returned r2 ->
  new_width r1 = new_width r2 /\ new_height r1 = new_height r2 /\
  x_offset r1 <= x_offset r2 /\ y_offset r1 <= y_offset r2.
Proof.
  intros Hx Hy. rewrite !inset_geometry_in_parts, !inset_size_ignores_position.
  destruct (inset_size h w c) as [[nw nh]|e|]; cbn [bind fst snd];
    [|discriminate|discriminate].
  intros E1 E2. apply Returned_inj in E1, E2. subst r1 r2.
  cbn [new_width new_height x_offset y_offset positioned
       video_x_position video_y_position].
  repeat split; apply slider_offset_monotone; assumption.
Qed.

(** X22. The ends of the sliders are the edges of the canvas: at 0 the
    inset sits at the left/top edge; at 100 an inset that fits sits flush
    with the right/bottom edge. *)
Theorem slider_ends_are_the_edges h w c r0 r100 :
  inset_geometry h w (positioned c 0 0) = Returned r0 ->
  inset_geometry h w (positioned c 100 100) = Returned r100 ->
  new_width r100 <= preview_width ->
  new_height r100 <= preview_height ->
  x_offset r0 = 0 /\ y_offset r0 = 0 /\
  x_offset r100 + new_width r100 = preview_width /\
  y_offset r100 + new_height r100 = preview_height.
Proof.
  rewrite !inset_geometry_in_parts, !inset_size_ignores_position.
  destruct (inset_size h w c) as [[nw nh]|e|]; cbn [bind fst snd];
    [|discriminate|discriminate].
  intros E1 E2. apply Returned_inj in E1, E2. subst r0 r100.
  cbn [new_width new_height x_offset y_offset positioned
       video_x_position video_y_position].
  intros Hw Hh. rewrite !slider_offset_left, !slider_offset_right by lia. lia.
Qed.

End InsetMore.

Section InsetMoreExamples.
Import Gui.

Lemma inset_geometry_returns_for_slider_crops_witness :
  exists r,
    inset_geometry 1920 1080
      {| crop_top := 20; crop_bottom := 20;
         video_x_position := 50; video_y_position := 50 |} = Returned r /\
    (new_height r = 171 \/ new_width r = 112) /\
    0 <= new_width r /\ 0 <= new_height r /\
    0 <= x_offset r /\ 0 <= y_offset r.
Proof.
  apply (inset_geometry_returns_for_slider_crops 1920 1080
           {| crop_top := 20; crop_bottom := 20;
              video_x_position := 50; video_y_position := 50 |});
    cbn [crop_top crop_bottom]; lia.
Defined.

Lemma inset_fits_for_moderate_ratios_witness :
  exists r,
    blur_preview_inset 1920 1080 Example.centred = Returned r /\ contained r.
Proof.
  apply (inset_fits_for_moderate_ratios 1920 1080 Example.centred).
  - vm_compute. discriminate.
  - vm_compute. discriminate.
  - vm_compute. discriminate.
Defined.

Lemma sliders_move_the_inset_witness :
  new_width {| x_offset := 12; y_offset := 21; new_width := 112; new_height := 199 |}
  = new_width {| x_offset := 36; y_offset := 64; new_width := 112; new_height := 199 |} /\
  new_height {| x_offset := 12; y_offset := 21; new_width := 112; new_height := 199 |}
  = new_height {| x_offset := 36; y_offset := 64; new_width := 112; new_height := 199 |} /\
  12 <= 36 /\ 21 <= 64.
Proof.
  apply (sliders_move_the_inset 1920 1080 Example.centred 25 25 75 75
           {| x_offset := 12; y_offset := 21; new_width := 112; new_height := 199 |}
           {| x_offset := 36; y_offset := 64; new_width := 112; new_height := 199 |}).
  - lia.
  - lia.
  - vm_compute. reflexivity.
  - vm_compute. reflexivity.
Defined.

Lemma slider_ends_are_the_edges_witness :
  0 = 0 /\ 0 = 0 /\ 48 + 112 = preview_width /\ 86 + 199 = preview_height.
Proof.
  apply (slider_ends_are_the_edges 1920 1080 Example.centred
           {| x_offset := 0; y_offset := 0; new_width := 112; new_height := 199 |}
           {| x_offset := 48; y_offset := 86; new_width := 112; new_height := 199 |}).
  - vm_compute. reflexivity.
  - vm_compute. reflexivity.
  - cbn [new_width]. unfold preview_width. lia.
  - cbn [new_height]. unfold preview_height. lia.
Defined.

End InsetMoreExamples.

(** ** The vertical anchor of the text block *)

Section OverlayAnchor.
Context `{TextOverlay.TextRendering}.
Import TextOverlay.

(** X23. [add_text_overlay] hands the layout function the anchor
    [text_base_y], and for a text block that fits between the margins
    (at most [FRAME_HEIGHT - 40] high) this anchor keeps the whole block
    between 20 pixels from the top and 20 pixels from the bottom,
    whatever the vertical slider says. *)
Theorem text_block_stays_inside_frame frame video_name ts pil_image lines :
  fromarray frame = Some pil_image ->
  smart_text_wrap
    (Py.replace_char "_"%char " "%char (splitext_root video_name)) pil_image
    (match truetype (get_font_file (font ts)) (size ts) with
     | Some f => f
     | None => load_default
     end) (FRAME_WIDTH - 80) 80 = Some lines ->
  Z.of_nat (List.length lines) * (size ts + 10) <= FRAME_HEIGHT - 40 ->
  let fnt := match truetype (get_font_file (font ts)) (size ts) with
             | Some f => f
             | None => load_default
             end in
  let base_y := text_base_y ts (List.length lines) in
  20 <= base_y /\
  base_y + Z.of_nat (List.length lines) * (size ts + 10) <= FRAME_HEIGHT - 20 /\
  add_text_overlay_body frame video_name ts =
  match render_text_with_emoji_multiline pil_image lines fnt
          FRAME_WIDTH FRAME_HEIGHT base_y 80 10 with
  | None => None
  | Some rendered_lines =>
      match draw_lines ts fnt
              (match color ts with Some c => c | None => "#000000"%string end)
              rendered_lines pil_image with
      | None => None
      | Some img => toarray img
      end
  end.
Proof.
  intros Hpil Hwrap Hfits fnt base_y.
  split; [|split].
  - unfold base_y, text_base_y. lia.
  - unfold base_y, text_base_y. lia.
  - subst fnt base_y. unfold add_text_overlay_body, text_base_y.
    rewrite Hpil. cbv zeta. rewrite Hwrap. reflexivity.
Qed.

End OverlayAnchor.

Section OverlayAnchorExamples.
#[local] Existing Instances Example.imaging Example.pil Example.text_rendering.
Import TextOverlay.

Lemma text_block_stays_inside_frame_witness :
  20 <= text_base_y (Example.settings 50) 1 /\
  text_base_y (Example.settings 50) 1 + 1 * (65 + 10) <= FRAME_HEIGHT - 20 /\
  @add_text_overlay_body _ _ Example.text_rendering 5%nat "my_clip"
    (Example.settings 50) = Some 232%nat.
Proof.
  apply (@text_block_stays_inside_frame _ _ Example.text_rendering
           5%nat "my_clip" (Example.settings 50) 5%nat ["my clip"%string]).
  - reflexivity.
  - reflexivity.
  - vm_compute. discriminate.
Defined.

End OverlayAnchorExamples.

(** ** The duration label of the narasi section *)

Lemma Qfloor_unique (x : Q) (z : Z) :
  (inject_Z z <= x)%Q -> (x < inject_Z (z + 1))%Q -> Qfloor x = z.
Proof.
  intros Hlo Hhi.
  pose proof (Qfloor_le x) as Hf. pose proof (Qlt_floor x) as Hc.
  assert (z < Qfloor x + 1) by (rewrite Zlt_Qlt; lra).
  assert (Qfloor x < z + 1) by (rewrite Zlt_Qlt; lra).
  lia.
Qed.

Lemma int_of_integer (z : Z) : Py.int (inject_Z z) = z.
Proof. unfold Py.int, inject_Z. cbn [Qnum Qden]. apply Z.quot_1_r. Qed.

(** X24. For a duration that is not negative the label shows whole
    minutes and seconds: the seconds lie between 0 and 59, and
    [60 * minutes + seconds] is the duration rounded down to a whole
    second. *)
Theorem duration_label_splits_whole_seconds (duration : Q) :
  (0 <= duration)%Q ->
  0 <= NarasiSection.seconds duration <= 59 /\
  0 <= NarasiSection.minutes duration /\
  60 * NarasiSection.minutes duration + NarasiSection.seconds duration
    = Qfloor duration.
Proof.
  intros Hd. unfold NarasiSection.minutes, NarasiSection.seconds.
  rewrite int_of_integer.
  destruct (fmod_spec duration 60 ltac:(reflexivity)) as (Hsplit & Hlo & Hhi).
  rewrite (int_of_nonneg _ Hlo).
  set (k := Qfloor (duration / 60)) in *.
  set (r := Moviepy.fmod duration 60) in *.
  pose proof (Qfloor_le r) as Hrf. pose proof (Qlt_floor r) as Hrc.
  assert (Hr0 : 0 <= Qfloor r).
  { change 0 with (Qfloor 0). apply Qfloor_resp_le. exact Hlo. }
  assert (Hr59 : Qfloor r < 60).
  { rewrite Zlt_Qlt. change (inject_Z 60) with 60%Q. lra. }
  assert (Hk : 0 <= k).
  { unfold k. change 0 with (Qfloor 0). apply Qfloor_resp_le.
    apply Qle_shift_div_l; [reflexivity|]. lra. }
  assert (Hfloor : Qfloor duration = 60 * k + Qfloor r).
  { apply Qfloor_unique.
    - rewrite inject_Z_plus, inject_Z_mult. change (inject_Z 60) with 60%Q. lra.
    - replace (60 * k + Qfloor r + 1) with (60 * k + (Qfloor r + 1)) by lia.
      rewrite inject_Z_plus, inject_Z_mult. change (inject_Z 60) with 60%Q. lra. }
  lia.
Qed.

Lemma duration_label_splits_whole_seconds_witness :
  0 <= NarasiSection.seconds (1255 # 10) <= 59 /\
  0 <= NarasiSection.minutes (1255 # 10) /\
  60 * NarasiSection.minutes (1255 # 10) + NarasiSection.seconds (1255 # 10)
    = Qfloor (1255 # 10).
Proof.
  apply (duration_label_splits_whole_seconds (1255 # 10)). discriminate.
Defined.

(** ** Concatenation with OpenCV *)

Section ConcatFacts.
Context `{Imaging}.
Import Concat.

Lemma fit_shape width height frame :
  (forall f w h, shape (resize f (w, h)) = (h, w)) ->
  shape (fit width height frame) = (height, width).
Proof.
  intros Hresize. unfold fit.
  destruct (shape frame) as [h w] eqn:Es.
  destruct (Z.eqb_spec h height), (Z.eqb_spec w width); cbn [andb];
    try apply Hresize.
  rewrite Es. congruence.
Qed.

Lemma write_frames_spec width height frames :
  forall frame_count total_frames out,
    write_frames width height frames frame_count total_frames out =
    (frame_count + Z.of_nat (List.length frames),
     total_frames + Z.of_nat (List.length frames),
     out ++ map (fit width height) frames).
Proof.
  induction frames as [|f rest IH]; intros frame_count total_frames out.
  - cbn [write_frames List.length map]. rewrite app_nil_r, !Z.add_0_r. reflexivity.
  - cbn [write_frames map]. rewrite IH, <- app_assoc. cbn [app List.length].
    apply f_equal2; [apply f_equal2; lia|reflexivity].
Qed.

Lemma concat_loop_spec width height videos :
  forall total_frames out,
    concat_loop width height videos total_frames out =
    (total_frames + Z.of_nat (List.length (all_frames videos)),
     out ++ map (fit width height) (all_frames videos)).
Proof.
  unfold all_frames.
  induction videos as [|v rest IH]; intros total_frames out.
  - cbn [concat_loop flat_map List.length map]. rewrite app_nil_r, Z.add_0_r.
    reflexivity.
  - cbn [concat_loop flat_map]. rewrite write_frames_spec, IH.
    rewrite length_app, map_app, <- app_assoc.
    apply f_equal2; [lia|reflexivity].
Qed.

(** X25. [concatenate_videos_opencv] writes every frame of every input,
    in input order, each brought to the size of the first input; the
    frame count it returns is the number of frames written, and the
    duration it returns is that count divided by the target rate. *)
Theorem concatenation_keeps_every_frame_in_order first rest target_fps :
  (forall f w h, shape (resize f (w, h)) = (h, w)) ->
  target_fps <> 0 ->
  let videos := first :: rest in
  let width := Py.int (prop_width first) in
  let height := Py.int (prop_height first) in
  exists total_duration total_frames out,
    concatenate_videos_opencv videos target_fps
      = Returned (total_duration, total_frames, out) /\
    out = map (fit width height) (all_frames videos) /\
    total_frames = Z.of_nat (List.length out) /\
    List.length out = List.length (all_frames videos) /\
    Forall (fun f => shape f = (height, width)) out /\
    (total_duration * inject_Z target_fps == inject_Z total_frames)%Q.
Proof.
  intros Hresize Hfps videos width height.
  subst videos width height. unfold concatenate_videos_opencv. cbv zeta.
  rewrite concat_loop_spec. cbn [app Z.add].
  destruct (Z.eqb_spec target_fps 0) as [Hz|_]; [contradiction|].
  do 3 eexists. split; [reflexivity|].
  split; [reflexivity|]. rewrite length_map.
  split; [reflexivity|]. split; [reflexivity|]. split.
  - apply Forall_map. apply Forall_forall. intros f _.
    apply fit_shape. exact Hresize.
  - field. intros Hq. apply Hfps.
    unfold Qeq, inject_Z in Hq. cbn [Qnum Qden] in Hq. lia.
Qed.

End ConcatFacts.

Lemma concatenation_keeps_every_frame_in_order_witness :
  exists total_duration total_frames out,
    @Concat.concatenate_videos_opencv Example.sized_imaging
      [Example.sized_first; Example.sized_second] 30
      = Returned (total_duration, total_frames, out) /\
    out = [(4, 3, 1%nat); (4, 3, 2%nat); (4, 3, 3%nat)] /\
    total_frames = Z.of_nat (List.length out) /\
    List.length out = 3%nat /\
    Forall (fun f => @shape Example.sized_imaging f = (4, 3)) out /\
    (total_duration * inject_Z 30 == inject_Z total_frames)%Q.
Proof.
  apply (@concatenation_keeps_every_frame_in_order Example.sized_imaging
           Example.sized_first [Example.sized_second] 30).
  - intros f w h. reflexivity.
  - discriminate.
Defined.

(** ** Choosing the video writer *)

Section WriterFacts.
Import Writer.
Variable Code : Type.
Variable new_writer : nat -> Code -> io_result bool.
Variable mp4v : Code.

Lemma try_fourcc_options_all_fail options : forall k,
  (forall i name code, nth_error options i = Some (name, code) ->
                       new_writer (k + i) code <> Ok true) ->
  try_fourcc_options Code new_writer k options = None.
Proof.
  induction options as [|[name code] rest IH]; intros k Hfail; [reflexivity|].
  cbn [try_fourcc_options].
  pose proof (Hfail 0%nat name code eq_refl) as Hc.
  rewrite Nat.add_0_r in Hc.
  assert (Hrest : try_fourcc_options Code new_writer (S k) rest = None).
  { apply IH. intros i n c Hin.
    replace (S k + i)%nat with (k + S i)%nat by lia.
    apply (Hfail (S i) n c). exact Hin. }
  destruct (new_writer k code) as [[|]|e]; try congruence.
Qed.

Lemma try_fourcc_options_first before name code after : forall k,
  (forall i n c, nth_error before i = Some (n, c) ->
                 new_writer (k + i) c <> Ok true) ->
  new_writer (k + List.length before) code = Ok true ->
  try_fourcc_options Code new_writer k (before ++ (name, code) :: after)
  = Some {| fourcc := code; isOpened := true |}.
Proof.
  induction before as [|[n c] rest IH]; intros k Hfail Hopen;
    cbn [app try_fourcc_options].
  - cbn [List.length] in Hopen. rewrite Nat.add_0_r in Hopen.
    rewrite Hopen. reflexivity.
  - pose proof (Hfail 0%nat n c eq_refl) as Hc.
    rewrite Nat.add_0_r in Hc.
    assert (Hrest : try_fourcc_options Code new_writer (S k)
                      (rest ++ (name, code) :: after)
                    = Some {| fourcc := code; isOpened := true |}).
    { apply IH.
      - intros i n' c' Hin.
        replace (S k + i)%nat with (k + S i)%nat by lia.
        apply (Hfail (S i) n' c'). exact Hin.
      - cbn [List.length] in Hopen.
        replace (S k + List.length rest)%nat
          with (k + S (List.length rest))%nat by lia.
        exact Hopen. }
    destruct (new_writer k c) as [[|]|e]; try congruence.
Qed.

(** X26. The writer is created with the first candidate codec that
    opens; candidates before it that do not open, or whose constructor
    raises, are skipped. When no candidate opens, the mp4v attempt does
    not open either and the last constructor call gives a writer that
    is not opened, that unopened writer is returned as a normal result:
    no error is reported. *)
Theorem first_opening_codec_wins :
  (forall before name code after,
     (forall i n c, nth_error before i = Some (n, c) ->
                    new_writer i c <> Ok true) ->
     new_writer (List.length before) code = Ok true ->
     get_gpu_video_writer Code new_writer mp4v (before ++ (name, code) :: after)
     = Returned {| fourcc := code; isOpened := true |}) /\
  (forall options,
     (forall i n c, nth_error options i = Some (n, c) ->
                    new_writer i c <> Ok true) ->
     new_writer (List.length options) mp4v <> Ok true ->
     new_writer (S (List.length options)) mp4v = Ok false ->
     get_gpu_video_writer Code new_writer mp4v options
     = Returned {| fourcc := mp4v; isOpened := false |}).
Proof.
  split.
  - intros before name code after Hfail Hopen. unfold get_gpu_video_writer.
    rewrite (try_fourcc_options_first before name code after 0 Hfail Hopen).
    reflexivity.
  - intros options Hfail Hclosed Hlast. unfold get_gpu_video_writer.
    rewrite (try_fourcc_options_all_fail options 0 Hfail).
    destruct (new_writer (List.length options) mp4v) as [[|]|e];
      try congruence; rewrite Hlast; reflexivity.
Qed.

End WriterFacts.

Lemma first_opening_codec_wins_witness :
  Writer.get_gpu_video_writer nat
    (fun _ c => if Nat.eqb c 2 then Ok true else if Nat.eqb c 1 then Err "no codec"
                else Ok false) 9%nat
    ([("avc1"%string, 0%nat); ("h264"%string, 1%nat)]
       ++ ("xvid"%string, 2%nat) :: [("mjpg"%string, 3%nat)])
  = Returned {| Writer.fourcc := 2%nat; Writer.isOpened := true |} /\
  Writer.get_gpu_video_writer nat
    (fun _ c => if Nat.eqb c 2 then Ok true else if Nat.eqb c 1 then Err "no codec"
                else Ok false) 9%nat
    [("avc1"%string, 0%nat); ("h264"%string, 1%nat)]
  = Returned {| Writer.fourcc := 9%nat; Writer.isOpened := false |}.
Proof.
  pose proof (first_opening_codec_wins nat
                (fun _ c => if Nat.eqb c 2 then Ok true
                            else if Nat.eqb c 1 then Err "no codec" else Ok false)
                9%nat) as [Hfirst Hnone].
  split.
  - apply Hfirst; [|reflexivity].
    intros [|[|[|i]]] n c E; cbn in E; try discriminate E;
      injection E as _ <-; discriminate.
  - apply Hnone; [|discriminate|reflexivity].
    intros [|[|[|i]]] n c E; cbn in E; try discriminate E;
      injection E as _ <-; discriminate.
Defined.

(** ** Colours *)

Section ColorFacts.
Import Color.
Variable int16 : string -> option Z.

Lemma substring_short n m s :
  (String.length s <= n)%nat -> substring n m s = ""%string.
Proof.
  revert s. induction n as [|n IH]; intros s Hlen.
  - destruct s; [|cbn in Hlen; lia]. destruct m; reflexivity.
  - destruct s as [|c s]; [reflexivity|]. cbn in Hlen. cbn [substring].
    apply IH. lia.
Qed.

Lemma substring_append n m s t :
  (n + m <= String.length s)%nat -> substring n m (s ++ t) = substring n m s.
Proof.
  revert m s. induction n as [|n IH]; intros m s Hlen.
  - revert s Hlen. induction m as [|m IHm]; intros s Hlen.
    + destruct s; destruct t; reflexivity.
    + destruct s as [|c s]; [cbn in Hlen; lia|].
      cbn [append substring]. f_equal. apply IHm. cbn in Hlen. lia.
  - destruct s as [|c s]; [cbn in Hlen; lia|].
    cbn [append substring]. apply IH. cbn in Hlen. lia.
Qed.

Lemma lstrip_hash_no_hash c s :
  Ascii.eqb c "#" = false -> lstrip_hash (String c s) = String c s.
Proof. intros Hc. cbn [lstrip_hash]. rewrite Hc. reflexivity. Qed.

(** X27. [hex_to_rgb] ignores every leading [#]. Of what follows only
    the first six characters are read: anything after them changes
    nothing. A colour with fewer than five characters after the [#],
    such as the three-digit shorthand, raises, since the empty string
    is no number. *)
Theorem hex_to_rgb_reads_six_digits :
  int16 ""%string = None ->
  (forall s, hex_to_rgb int16 (String "#" s) = hex_to_rgb int16 s) /\
  (forall c s t,
     Ascii.eqb c "#" = false -> String.length (String c s) = 6%nat ->
     hex_to_rgb int16 (String c s ++ t) = hex_to_rgb int16 (String c s)) /\
  (forall s,
     (String.length (lstrip_hash s) <= 4)%nat ->
     raises (hex_to_rgb int16 s)).
Proof.
  intros Hempty. split; [|split].
  - intros s. reflexivity.
  - intros c s t Hc Hlen. unfold hex_to_rgb.
    change (String c s ++ t)%string with (String c (s ++ t)).
    rewrite !lstrip_hash_no_hash by exact Hc.
    change (String c (s ++ t)) with (String c s ++ t)%string.
    rewrite !substring_append by (rewrite Hlen; lia).
    reflexivity.
  - intros s Hlen. unfold hex_to_rgb. cbv zeta.
    rewrite (substring_short 4 2 _ Hlen), Hempty.
    destruct (int16 (substring 0 2 (lstrip_hash s)));
      [destruct (int16 (substring 2 2 (lstrip_hash s)))|]; eexists; reflexivity.
Qed.

End ColorFacts.

Lemma hex_to_rgb_reads_six_digits_witness :
  Color.hex_to_rgb Example.int16 ("ff8000" ++ "cc")%string
  = Returned (255, 128, 0) /\
  raises (Color.hex_to_rgb Example.int16 "#fff"%string).
Proof.
  pose proof (hex_to_rgb_reads_six_digits Example.int16 eq_refl)
    as (_ & Hsix & Hshort).
  split.
  - rewrite (Hsix "f"%char "f8000"%string "cc"%string eq_refl eq_refl).
    reflexivity.
  - apply Hshort. cbn. lia.
Defined.

(** ** Selecting the input files *)

Section SelectionFacts.
Import Selection.
Variables dirname basename : string -> string.
Variables get_video_files get_gif_files : string -> io_result (list string).




End SelectionFacts.


(** ** The panels of the three modes *)

Section LayoutFacts.
Import Layout.

Lemma layout_run_snoc p es e : run p (es ++ [e]) = on_mode_change e (run p es).
Proof. unfold run. rewrite fold_left_app. reflexivity. Qed.

(** X29. After any sequence of mode changes, the last of which got past
    the description update, the template, blur and narasi panels are
    shown or hidden according to the last mode alone, and so are the two
    notes when the preview update returned. The text panel is not:
    greenscreen shows it and blur hides it, but narasi leaves it as the
    changes before left it. *)
Theorem panels_follow_last_mode_except_text (p : Panels)
    (es : list ModeChange) (e : ModeChange) :
  In (mode e) ["greenscreen"; "blur"; "narasi"]%string ->
  update_description e = Ok tt ->
  let before := run p es in
  let q := run p (es ++ [e]) in
  template_section q = negb (String.eqb (mode e) "blur") /\
  blur_frame q = String.eqb (mode e) "blur" /\
  narasi_section q = String.eqb (mode e) "narasi" /\
  narasi_text_frame q = String.eqb (mode e) "narasi" /\
  (update_preview e = Ok tt ->
   audio_note_label q = String.eqb (mode e) "narasi" /\
   narasi_note_label q = String.eqb (mode e) "narasi") /\
  text_frame q = (if String.eqb (mode e) "narasi" then text_frame before
                  else String.eqb (mode e) "greenscreen").
Proof.
  intros Hm Hdesc before q. subst before q. rewrite layout_run_snoc.
  unfold on_mode_change. rewrite Hdesc.
  destruct e as [m d t]. cbn [mode update_description] in *.
  unfold update_preview. cbn [mode template_preview].
  destruct Hm as [<-|[<-|[<-|[]]]]; cbn [String.eqb Ascii.eqb Bool.eqb orb];
    destruct t as [[]|err]; repeat split; try reflexivity; congruence.
Qed.

End LayoutFacts.

Lemma panels_follow_last_mode_except_text_witness :
  Layout.text_frame
    (Layout.run
       {| Layout.template_section := false; Layout.text_frame := false;
          Layout.blur_frame := false; Layout.narasi_section := false;
          Layout.narasi_text_frame := false; Layout.audio_note_label := false;
          Layout.narasi_note_label := false |}
       ([ {| Layout.mode := "blur"; Layout.update_description := Ok tt;
             Layout.template_preview := Ok tt |};
          {| Layout.mode := "greenscreen"; Layout.update_description := Ok tt;
             Layout.template_preview := Err "no template" |} ]
        ++ [ {| Layout.mode := "narasi"; Layout.update_description := Ok tt;
                Layout.template_preview := Ok tt |} ])) = true.
Proof.
  pose proof (panels_follow_last_mode_except_text
                {| Layout.template_section := false; Layout.text_frame := false;
                   Layout.blur_frame := false; Layout.narasi_section := false;
                   Layout.narasi_text_frame := false;
                   Layout.audio_note_label := false;
                   Layout.narasi_note_label := false |}
                [ {| Layout.mode := "blur"; Layout.update_description := Ok tt;
                     Layout.template_preview := Ok tt |};
                  {| Layout.mode := "greenscreen";
                     Layout.update_description := Ok tt;
                     Layout.template_preview := Err "no template" |} ]
                {| Layout.mode := "narasi"; Layout.update_description := Ok tt;
                   Layout.template_preview := Ok tt |}
                (or_intror (or_intror (or_introl eq_refl))) eq_refl) as Hall.
  cbv zeta in Hall.
  destruct Hall as (_ & _ & _ & _ & _ & Htext).
  rewrite Htext. reflexivity.
Defined.
